(** * FinDocGPT: the cache, the file dispatcher, the text heuristics, the
    forecast blend and the recommendation rules, embedded and verified.

    Modelling conventions, used throughout.

    - A Python [dict] is a [gmap]; a Python [set] of strings is a
      [gset string]; a Python [str] is a [string], its characters the code
      points below 256.
    - A float is a [pyfloat]: a rational number, an infinity or a NaN.  A
      literal such as [0.7] denotes its decimal value and arithmetic on
      finite values is exact (rounding and overflow are not modelled).
      Python's float division raises [ZeroDivisionError] on a zero divisor;
      NumPy's scalar division returns an infinity or a NaN instead.
    - A call that may raise returns a [result]; [try]/[except Exception]
      is a match on it.
    - [datetime.now()] is an explicit argument of the function that reads
      the clock: an instant in microseconds, the resolution of [datetime].
    - Third-party library calls (hashlib, json, pdfplumber, pandas,
      TextBlob, scikit-learn, requests, ...) are variables of the section
      that embeds their caller. *)

From stdpp Require Import gmap strings list fin_maps pretty.
From Stdlib Require Import ZArith QArith Qabs Lqa Lia Ascii.

Local Open Scope string_scope.
Local Open Scope Z_scope.

(** ** Exceptions and results *)

Inductive exn : Type :=
  | OverflowError
  | ZeroDivisionError
  | TypeError
  | AttributeError
  | IndexError
  | KeyError
  | UnicodeDecodeError
  | OtherException (msg : string).

Inductive result (A : Type) : Type :=
  | Return (a : A)
  | Raise (e : exn).

Arguments Return {A} a.
Arguments Raise {A} e.

(** Sequencing: an exception raised by the first computation skips the
    rest.  The notation [x ← r; k] is stdpp's. *)
#[global] Instance result_ret : MRet result := fun A a => Return a.
#[global] Instance result_bind : MBind result := fun A B k r =>
  match r with
  | Return a => k a
  | Raise e => Raise e
  end.

(** ** Floats

    A float is a rational, an infinity or a NaN.  Arithmetic on finite
    values is exact; the special values follow IEEE 754 (zero is unsigned,
    so a division by zero takes the sign of the dividend).  Comparisons with
    a NaN are false. *)

Inductive pyfloat : Type :=
  | Fin (q : Q)
  | PInf
  | NInf
  | NaN.

Arguments Fin q%_Q.

Declare Scope float_scope.
Delimit Scope float_scope with F.
Bind Scope float_scope with pyfloat.

Definition Qltb (x y : Q) : bool := negb (Qle_bool y x).

Definition fneg (x : pyfloat) : pyfloat :=
  match x with
  | Fin q => Fin (- q)
  | PInf => NInf
  | NInf => PInf
  | NaN => NaN
  end.

Definition fadd (x y : pyfloat) : pyfloat :=
  match x, y with
  | NaN, _ | _, NaN => NaN
  | Fin a, Fin b => Fin (a + b)
  | PInf, NInf | NInf, PInf => NaN
  | PInf, _ | _, PInf => PInf
  | NInf, _ | _, NInf => NInf
  end.

Definition fsub (x y : pyfloat) : pyfloat := fadd x (fneg y).

(** The infinity of the sign of [a], or NaN when [a] is zero. *)
Definition signed_inf (a : Q) (positive : bool) : pyfloat :=
  match (a ?= 0)%Q with
  | Eq => NaN
  | Gt => if positive then PInf else NInf
  | Lt => if positive then NInf else PInf
  end.

Definition fmul (x y : pyfloat) : pyfloat :=
  match x, y with
  | NaN, _ | _, NaN => NaN
  | Fin a, Fin b => Fin (a * b)
  | Fin a, PInf | PInf, Fin a => signed_inf a true
  | Fin a, NInf | NInf, Fin a => signed_inf a false
  | PInf, PInf | NInf, NInf => PInf
  | PInf, NInf | NInf, PInf => NInf
  end.

(** NumPy's scalar division: no exception, a zero divisor gives an infinity
    or a NaN. *)
Definition np_div (x y : pyfloat) : pyfloat :=
  match x, y with
  | NaN, _ | _, NaN => NaN
  | Fin a, Fin b => if Qeq_bool b 0 then signed_inf a true else Fin (a / b)
  | Fin _, (PInf | NInf) => Fin 0
  | (PInf | NInf), (PInf | NInf) => NaN
  | PInf, Fin b => if Qltb b 0 then NInf else PInf
  | NInf, Fin b => if Qltb b 0 then PInf else NInf
  end.

(** Python's float division: [ZeroDivisionError] on a zero divisor. *)
Definition py_div (x y : pyfloat) : result pyfloat :=
  match y with
  | Fin b => if Qeq_bool b 0 then Raise ZeroDivisionError
             else Return (np_div x y)
  | _ => Return (np_div x y)
  end.

Definition fltb (x y : pyfloat) : bool :=
  match x, y with
  | NaN, _ | _, NaN => false
  | Fin a, Fin b => Qltb a b
  | _, NInf => false
  | NInf, _ => true
  | PInf, _ => false
  | Fin _, PInf => true
  end.

Definition fleb (x y : pyfloat) : bool :=
  match x, y with
  | NaN, _ | _, NaN => false
  | Fin a, Fin b => Qle_bool a b
  | NInf, _ => true
  | _, PInf => true
  | _, NInf => false
  | PInf, Fin _ => false
  end.

Definition fgtb (x y : pyfloat) : bool := fltb y x.
Definition fgeb (x y : pyfloat) : bool := fleb y x.

(** [x == y] on floats. *)
Definition feqb (x y : pyfloat) : bool :=
  match x, y with
  | Fin a, Fin b => Qeq_bool a b
  | PInf, PInf | NInf, NInf => true
  | _, _ => false
  end.

Notation "x + y" := (fadd x y) : float_scope.
Notation "x - y" := (fsub x y) : float_scope.
Notation "x * y" := (fmul x y) : float_scope.
Notation "x <? y" := (fltb x y) : float_scope.
Notation "x >? y" := (fgtb x y) : float_scope.
Notation "x <=? y" := (fleb x y) : float_scope.
Notation "x >=? y" := (fgeb x y) : float_scope.

(** The same float: equal as rationals, or the same special value. *)
Definition same_float (x y : pyfloat) : Prop :=
  match x, y with
  | Fin a, Fin b => (a == b)%Q
  | PInf, PInf | NInf, NInf | NaN, NaN => True
  | _, _ => False
  end.

(** Python's [max(a, b)] returns [b] when [b > a] and [a] otherwise;
    [min(a, b)] returns [b] when [b < a] and [a] otherwise. *)
Definition py_max (a b : pyfloat) : pyfloat := if (b >? a)%F then b else a.
Definition py_min (a b : pyfloat) : pyfloat := if (b <? a)%F then b else a.

(** Python's [abs] on a float. *)
Definition py_abs (x : pyfloat) : pyfloat :=
  match x with
  | Fin q => Fin (Qabs q)
  | PInf | NInf => PInf
  | NaN => NaN
  end.

(** [sum(xs)]: from the integer 0, left to right. *)
Definition py_sum (xs : list pyfloat) : pyfloat :=
  foldl fadd (Fin 0) xs.

(** ** core/performance_monitor.py: the counters the cache touches *)

Record PerformanceMonitor : Type := mkMonitor {
  api_calls : nat;
  cache_hits : nat;
  cache_misses : nat
}.

Definition track_cache_hit (m : PerformanceMonitor) : PerformanceMonitor :=
  mkMonitor (api_calls m) (S (cache_hits m)) (cache_misses m).

Definition track_cache_miss (m : PerformanceMonitor) : PerformanceMonitor :=
  mkMonitor (api_calls m) (cache_hits m) (S (cache_misses m)).

(** ** core/cache_manager.py *)

Module cache_manager.

(** [timedelta(minutes=m)] in microseconds.  A [timedelta] holds between
    -999999999 and 999999999 days; outside, the constructor raises
    [OverflowError]. *)
Definition microseconds_per_minute : Z := 60000000.
Definition microseconds_per_day : Z := 86400000000.

Definition timedelta_minutes (m : Z) : result Z :=
  let us := m * microseconds_per_minute in
  let days := us / microseconds_per_day in
  if (-999999999 <=? days) && (days <=? 999999999) then Return us
  else Raise OverflowError.

Section CacheManager.

(** The cached data ([Any]) and the parameter dictionaries. *)
Context {Data Params : Type}.

(** [json.dumps(params, sort_keys=True, default=str)] on the parameter
    dictionaries it serialises, and [hashlib.md5(s.encode()).hexdigest()]. *)
Variable json_dumps : Params -> string.
Variable md5_hexdigest : string -> string.

Record cached_item : Type := mkItem {
  data : Data;
  timestamp : Z
}.

(** The manager: the store in use (the session's or the instance's, chosen
    once by [__init__]) and the session's performance monitor, when the
    session has one. *)
Record CacheManager : Type := mkCache {
  _use_session_state : bool;
  cache_store : gmap string cached_item;
  performance_monitor : option PerformanceMonitor
}.

Definition _generate_key (prefix : string) (params : Params) : string :=
  prefix +:+ "_" +:+ md5_hexdigest (json_dumps params).

Definition with_store (c : CacheManager) (s : gmap string cached_item)
  : CacheManager :=
  mkCache (_use_session_state c) s (performance_monitor c).

(** [if self._use_session_state and hasattr(st.session_state,
    'performance_monitor'): ...track_cache_hit()] and its miss twin. *)
Definition track (f : PerformanceMonitor -> PerformanceMonitor)
    (c : CacheManager) : CacheManager :=
  if _use_session_state c
  then mkCache (_use_session_state c) (cache_store c)
               (f <$> performance_monitor c)
  else c.

(** [get]: [now] is the instant [datetime.now()] returns in the call. *)
Definition get (prefix : string) (params : Params) (ttl_minutes : Z)
    (now : Z) (c : CacheManager) : result (option Data * CacheManager) :=
  let key := _generate_key prefix params in
  match cache_store c !! key with
  | Some cached =>
      ttl ← timedelta_minutes ttl_minutes;
      if now - timestamp cached <? ttl
      then Return (Some (data cached), track track_cache_hit c)
      else Return (None,
             track track_cache_miss
               (with_store c (delete key (cache_store c))))
  | None => Return (None, track track_cache_miss c)
  end.

(** [set]: [now] is the instant [datetime.now()] returns in the call. *)
Definition set (prefix : string) (params : Params) (d : Data)
    (now : Z) (c : CacheManager) : CacheManager :=
  let key := _generate_key prefix params in
  with_store c (<[key := mkItem d now]> (cache_store c)).

(** [clear_expired]: note the strict [>] where [get] uses [<]. *)
Definition clear_expired (ttl_minutes : Z) (now : Z) (c : CacheManager)
    : result CacheManager :=
  match map_to_list (cache_store c) with
  | [] => Return c
  | _ =>
      ttl ← timedelta_minutes ttl_minutes;
      Return (with_store c
        (filter (fun kv => ¬ (ttl < now - timestamp kv.2)) (cache_store c)))
  end.

Definition clear_all (c : CacheManager) : CacheManager :=
  with_store c ∅.

(** What a call returns, the manager left aside. *)
Definition returned {A S : Type} (r : result (A * S)) : result A :=
  x ← r; Return x.1.

End CacheManager.

End cache_manager.

(** ** Strings: the [str] methods the code calls *)

Definition nl : string := String (ascii_of_nat 10) "".

(** [c.isspace()] for a code point below 256. *)
Definition is_space (c : ascii) : bool :=
  let n := nat_of_ascii c in
  ((9 <=? n) && (n <=? 13) || (28 <=? n) && (n <=? 32)
   || (n =? 133) || (n =? 160))%nat.

(** [c.lower()] for a code point below 256. *)
Definition lower_char (c : ascii) : ascii :=
  let n := nat_of_ascii c in
  if ((65 <=? n) && (n <=? 90)
      || (192 <=? n) && (n <=? 222) && negb (n =? 215))%nat
  then ascii_of_nat (n + 32) else c.

Fixpoint py_lower (s : string) : string :=
  match s with
  | EmptyString => EmptyString
  | String c rest => String (lower_char c) (py_lower rest)
  end.

(** [s.split()]: the maximal runs of non-whitespace characters.  [cur] is
    the run being read, if any. *)
Fixpoint split_ws (cur : option string) (s : string) : list string :=
  let flush := match cur with Some w => [w] | None => [] end in
  match s with
  | EmptyString => flush
  | String c rest =>
      if is_space c then app flush (split_ws None rest)
      else
        let w := match cur with Some w => w | None => EmptyString end in
        split_ws (Some (w +:+ String c EmptyString)) rest
  end.

Definition py_split (s : string) : list string := split_ws None s.

(** [s.split(sep)] for a one-character separator. *)
Fixpoint split_on (sep : ascii) (s : string) : list string :=
  match s with
  | EmptyString => [EmptyString]
  | String c rest =>
      if Ascii.eqb c sep then EmptyString :: split_on sep rest
      else match split_on sep rest with
           | w :: ws => String c w :: ws
           | [] => [String c EmptyString]
           end
  end.

(** [s.strip(chars)], the characters to strip given as a predicate;
    [s.strip()] strips whitespace. *)
Fixpoint lstrip_by (p : ascii -> bool) (s : string) : string :=
  match s with
  | EmptyString => EmptyString
  | String c rest => if p c then lstrip_by p rest else s
  end.

Fixpoint rstrip_by (p : ascii -> bool) (s : string) : string :=
  match s with
  | EmptyString => EmptyString
  | String c rest =>
      match rstrip_by p rest with
      | EmptyString => if p c then EmptyString else String c EmptyString
      | r => String c r
      end
  end.

Definition strip_by (p : ascii -> bool) (s : string) : string :=
  rstrip_by p (lstrip_by p s).

Definition py_strip (s : string) : string := strip_by is_space s.

(** [len(s)] *)
Definition py_len (s : string) : Z := Z.of_nat (String.length s).

(** [c in chars] *)
Fixpoint char_in (chars : string) (c : ascii) : bool :=
  match chars with
  | EmptyString => false
  | String d rest => Ascii.eqb c d || char_in rest c
  end.

(** [needle in s] *)
Fixpoint contains (needle s : string) : bool :=
  String.prefix needle s
  || match s with
     | EmptyString => false
     | String _ rest => contains needle rest
     end.

(** [s[:n]] *)
Definition str_take (n : Z) (s : string) : string :=
  String.substring 0 (Z.to_nat n) s.

(** [sep.join(parts)] *)
Fixpoint join (sep : string) (parts : list string) : string :=
  match parts with
  | [] => ""
  | [p] => p
  | p :: rest => p +:+ sep +:+ join sep rest
  end.

(** [c * n] *)
Fixpoint repeat_char (c : ascii) (n : nat) : string :=
  match n with
  | O => EmptyString
  | S k => String c (repeat_char c k)
  end.

(** [str(n)] for an integer. *)
Definition str_of_int (n : Z) : string := pretty n.

(** ** Dictionary values

    The values the indicator, fundamentals and metadata dictionaries hold:
    integers, floats, strings, [None] and nested dictionaries. *)

#[warnings="-register-all"]
Inductive pyval : Type :=
  | VNone
  | VInt (n : Z)
  | VNum (x : pyfloat)
  | VStr (s : string)
  | VDict (d : gmap string pyval).

(** A number, where the code compares or computes with the value; any other
    value makes the comparison raise [TypeError]. *)
Definition as_num (v : pyval) : result pyfloat :=
  match v with
  | VInt n => Return (Fin (inject_Z n))
  | VNum x => Return x
  | _ => Raise TypeError
  end.

(** [v == 'text']: only a string equals a string. *)
Definition eq_str (v : option pyval) (s : string) : bool :=
  match v with
  | Some (VStr s') => String.eqb s' s
  | _ => false
  end.

(** Truthiness of a value in [if v:]. *)
Definition truthy (v : pyval) : bool :=
  match v with
  | VNone => false
  | VInt n => negb (n =? 0)
  | VNum x => negb (feqb x (Fin 0))
  | VStr s => negb (String.eqb s "")
  | VDict d => negb (bool_decide (d = ∅))
  end.

(** [d.get(k, default)] *)
Definition dict_get (d : gmap string pyval) (k : string) (default : pyval)
  : pyval :=
  match d !! k with
  | Some v => v
  | None => default
  end.

(** [v.get(k, default)] on a value: only a dictionary has [get]. *)
Definition val_get (v : pyval) (k : string) (default : pyval)
  : result pyval :=
  match v with
  | VDict d => Return (dict_get d k default)
  | _ => Raise AttributeError
  end.

(** [np.mean] of a non-empty list. *)
Definition np_mean (xs : list pyfloat) : pyfloat :=
  np_div (py_sum xs) (Fin (inject_Z (Z.of_nat (length xs)))).

(** ** investment_strategy.py *)

Module investment_strategy.

Inductive InvestmentAction : Type :=
  | STRONG_BUY
  | BUY
  | HOLD
  | WEAK_SELL
  | SELL.

(** The enumeration's values. *)
Definition action_value (a : InvestmentAction) : string :=
  match a with
  | STRONG_BUY => "Strong Buy"
  | BUY => "Buy"
  | HOLD => "Hold"
  | WEAK_SELL => "Weak Sell"
  | SELL => "Sell"
  end.

Record InvestmentRecommendation : Type := mkRecommendation {
  symbol : string;
  action : InvestmentAction;
  confidence : pyfloat;
  target_price : pyfloat;
  reasoning : string;
  risk_level : string;
  time_horizon : string
}.

Definition clamp01 (score : pyfloat) : pyfloat :=
  py_max (Fin 0) (py_min (Fin 1) score).

Definition _calculate_technical_score (indicators : gmap string pyval)
  : result pyfloat :=
  let score := Fin 0.5 in
  if bool_decide (indicators = ∅) then Return score else
  rsi ← as_num (dict_get indicators "rsi" (VNum (Fin 50)));
  let score :=
    if (Fin 30 <=? rsi)%F && (rsi <=? Fin 70)%F then (score + Fin 0.1)%F
    else if (rsi <? Fin 30)%F then (score + Fin 0.2)%F
    else if (rsi >? Fin 70)%F then (score - Fin 0.2)%F
    else score in
  let score :=
    if eq_str (indicators !! "price_vs_ma20") "Above"
    then (score + Fin 0.1)%F else (score - Fin 0.1)%F in
  let score :=
    if eq_str (indicators !! "price_vs_ma50") "Above"
    then (score + Fin 0.1)%F else (score - Fin 0.1)%F in
  volume_signal ←
    val_get (dict_get indicators "volume_analysis" (VDict ∅))
            "volume_signal" (VStr "Normal");
  let score :=
    if eq_str (Some volume_signal) "High"
    then (score + Fin 0.05)%F else score in
  let overall_trend := dict_get indicators "overall_trend" (VStr "Neutral") in
  let score :=
    if eq_str (Some overall_trend) "Bullish" then (score + Fin 0.15)%F
    else if eq_str (Some overall_trend) "Bearish" then (score - Fin 0.15)%F
    else score in
  Return (clamp01 score).

Definition growth_sectors : list string :=
  ["Technology"; "Healthcare"; "Consumer Discretionary"].

Definition _calculate_fundamental_score (fundamental_data : gmap string pyval)
  : result pyfloat :=
  if bool_decide (fundamental_data = ∅) then Return (Fin 0.5) else
  let score := Fin 0.5 in
  score ←
    match fundamental_data !! "pe_ratio" with
    | Some v =>
        if truthy v then
          pe_ratio ← as_num v;
          Return
            (if (Fin 10 <=? pe_ratio)%F && (pe_ratio <=? Fin 20)%F
             then (score + Fin 0.2)%F
             else if (pe_ratio <? Fin 10)%F then (score + Fin 0.1)%F
             else if (pe_ratio >? Fin 30)%F then (score - Fin 0.1)%F
             else score)
        else Return score
    | None => Return score
    end;
  market_cap ← as_num (dict_get fundamental_data "market_cap" (VNum (Fin 0)));
  let score :=
    if (market_cap >? Fin 10000000000)%F then (score + Fin 0.05)%F
    else score in
  let sector := dict_get fundamental_data "sector" (VStr "") in
  let score :=
    if existsb (fun s => eq_str (Some sector) s) growth_sectors
    then (score + Fin 0.1)%F else score in
  Return (clamp01 score).

Definition _determine_action
    (expected_return combined_score sentiment_score : pyfloat)
  : InvestmentAction * pyfloat :=
  if (expected_return >? Fin 10)%F && (combined_score >? Fin 0.7)%F
     && (sentiment_score >? Fin 0.2)%F
  then (STRONG_BUY, Fin 0.9)
  else if (expected_return >? Fin 5)%F && (combined_score >? Fin 0.6)%F
  then (BUY, Fin 0.8)
  else if (expected_return <? Fin (-10))%F
          || ((combined_score <? Fin 0.3)%F
              && (sentiment_score <? Fin (-0.3))%F)
  then (SELL, Fin 0.8)
  else if (expected_return <? Fin (-5))%F || (combined_score <? Fin 0.4)%F
  then (WEAK_SELL, Fin 0.7)
  else
    let confidence :=
      if (py_abs expected_return <? Fin 3)%F then Fin 0.6 else Fin 0.5 in
    (HOLD, confidence).

Definition _calculate_target_price (current_price : pyfloat)
    (predicted_prices : list pyfloat) (indicators : gmap string pyval)
  : result pyfloat :=
  match predicted_prices with
  | [] => Return current_price
  | _ =>
      let base_target := np_mean predicted_prices in
      let adjustment_factor := Fin 1 in
      let adjustment_factor :=
        if eq_str (indicators !! "overall_trend") "Bullish"
        then (adjustment_factor * Fin 1.05)%F
        else if eq_str (indicators !! "overall_trend") "Bearish"
        then (adjustment_factor * Fin 0.95)%F
        else adjustment_factor in
      volatility ← as_num (dict_get indicators "volatility" (VNum (Fin 0)));
      let adjustment_factor :=
        if (volatility >? current_price * Fin 0.02)%F
        then (adjustment_factor * Fin 0.98)%F
        else adjustment_factor in
      Return (base_target * adjustment_factor)%F
  end.

Definition _assess_risk_level (technical_indicators : gmap string pyval)
    (fundamental_data : option (gmap string pyval)) : result string :=
  let risk_score := Fin 0 in
  let volatility := dict_get technical_indicators "volatility" (VNum (Fin 0)) in
  current_price ←
    as_num (dict_get technical_indicators "current_price" (VNum (Fin 100)));
  vol_ratio ←
    (if (current_price >? Fin 0)%F
     then v ← as_num volatility; Return (np_div v current_price)
     else Return (Fin 0));
  let risk_score :=
    if (vol_ratio >? Fin 0.03)%F then (risk_score + Fin 2)%F
    else if (vol_ratio >? Fin 0.02)%F then (risk_score + Fin 1)%F
    else risk_score in
  rsi ← as_num (dict_get technical_indicators "rsi" (VNum (Fin 50)));
  let risk_score :=
    if (rsi >? Fin 80)%F || (rsi <? Fin 20)%F then (risk_score + Fin 1)%F
    else risk_score in
  risk_score ←
    match fundamental_data with
    | Some fd =>
        if bool_decide (fd = ∅) then Return risk_score else
        market_cap ← as_num (dict_get fd "market_cap" (VNum (Fin 0)));
        Return (if (market_cap <? Fin 1000000000)%F
                then (risk_score + Fin 1)%F else risk_score)
    | None => Return risk_score
    end;
  volume_signal ←
    val_get (dict_get technical_indicators "volume_analysis" (VDict ∅))
            "volume_signal" (VStr "Normal");
  let risk_score :=
    if eq_str (Some volume_signal) "High" then (risk_score + Fin 0.5)%F
    else risk_score in
  Return (if (risk_score >=? Fin 3)%F then "High"
          else if (risk_score >=? Fin 1.5)%F then "Medium"
          else "Low").

Section Recommendation.

(** [f"{x:.1f}"], the float formatted with one decimal. *)
Variable format_1f : pyfloat -> string.

Definition _generate_reasoning
    (expected_return sentiment_score technical_score fundamental_score
      : pyfloat) (action : InvestmentAction) : string :=
  let reasons :=
    [ if (expected_return >? Fin 5)%F
      then "Expected " +:+ format_1f expected_return +:+ "% price increase"
      else if (expected_return <? Fin (-5))%F
      then "Expected " +:+ format_1f expected_return +:+ "% price decrease"
      else "Modest price movement expected ("
             +:+ format_1f expected_return +:+ "%)" ] in
  let reasons := app reasons
    [ if (sentiment_score >? Fin 0.2)%F then "positive market sentiment"
      else if (sentiment_score <? Fin (-0.2))%F
      then "negative market sentiment"
      else "neutral market sentiment" ] in
  let reasons := app reasons
    [ if (technical_score >? Fin 0.6)%F then "strong technical indicators"
      else if (technical_score <? Fin 0.4)%F
      then "weak technical indicators"
      else "mixed technical signals" ] in
  let reasons := app reasons
    (if (fundamental_score >? Fin 0.6)%F then ["solid fundamentals"]
     else if (fundamental_score <? Fin 0.4)%F
     then ["concerning fundamentals"]
     else []) in
  "Recommendation based on: " +:+ join ", " reasons.

Definition generate_recommendation (symbol : string)
    (current_price : pyfloat) (predicted_prices : list pyfloat)
    (sentiment_score : pyfloat) (technical_indicators : gmap string pyval)
    (fundamental_data : option (gmap string pyval))
  : result InvestmentRecommendation :=
  match predicted_prices with
  | [] =>
      Return (mkRecommendation symbol HOLD (Fin 0.5) current_price
                "Insufficient data for recommendation" "Unknown" "N/A")
  | _ =>
      let avg_predicted := np_mean predicted_prices in
      let expected_return :=
        (np_div (avg_predicted - current_price) current_price * Fin 100)%F in
      technical_score ← _calculate_technical_score technical_indicators;
      fundamental_score ←
        match fundamental_data with
        | Some fd =>
            if bool_decide (fd = ∅) then Return (Fin 0.5)
            else _calculate_fundamental_score fd
        | None => Return (Fin 0.5)
        end;
      let combined_score :=
        (Fin 0.4 * (np_div expected_return (Fin 100) + Fin 1)
         + np_div (Fin 0.3 * (sentiment_score + Fin 1)) (Fin 2)
         + Fin 0.2 * technical_score
         + Fin 0.1 * fundamental_score)%F in
      let '(action, confidence) :=
        _determine_action expected_return combined_score sentiment_score in
      target_price ←
        _calculate_target_price current_price predicted_prices
          technical_indicators;
      risk_level ← _assess_risk_level technical_indicators fundamental_data;
      let reasoning :=
        _generate_reasoning expected_return sentiment_score technical_score
          fundamental_score action in
      Return (mkRecommendation symbol action confidence target_price
                reasoning risk_level "1-3 months")
  end.

End Recommendation.

End investment_strategy.

(** ** core/forecasting_models.py *)

Module forecasting_models.

(** [xs[-1]] *)
Definition last_item {A : Type} (xs : list A) : result A :=
  match last xs with
  | Some x => Return x
  | None => Raise IndexError
  end.

(** [xs[i]] for a non-negative [i]. *)
Definition item {A : Type} (xs : list A) (i : nat) : result A :=
  match xs !! i with
  | Some x => Return x
  | None => Raise IndexError
  end.

(** [xs[a:b]] for [0 <= a <= b]. *)
Definition slice {A : Type} (a b : nat) (xs : list A) : list A :=
  take (b - a) (drop a xs).

(** [series.tail(n)] *)
Definition tail_n {A : Type} (n : nat) (xs : list A) : list A :=
  drop (length xs - n) xs.

(** The part of the market data the forecast reads: the closing prices of
    the one-year history, [market_data['hist_1y']['Close']]. *)
Record MarketData : Type := mkMarketData {
  hist_1y_Close : list pyfloat
}.

(** [self.models], in insertion order, and [self.model_weights]. *)
Definition models : list string :=
  ["random_forest"; "gradient_boost"; "linear"].

Definition model_weights : gmap string pyfloat :=
  <["random_forest" := Fin 0.4]>
  (<["gradient_boost" := Fin 0.4]>
  (<["linear" := Fin 0.2]> ∅)).

Record ConfidenceIntervals : Type := mkIntervals {
  upper_bounds : list pyfloat;
  lower_bounds : list pyfloat;
  confidence_level : pyfloat;
  probability_up : pyfloat;
  probability_down : pyfloat;
  effective_volatility : pyfloat
}.

Definition is_nan (x : pyfloat) : bool :=
  match x with
  | NaN => true
  | _ => false
  end.

(** [series.pct_change().dropna()]: the relative change from each value to
    the next, the undefined ones dropped. *)
Fixpoint pct_change (prev : pyfloat) (xs : list pyfloat) : list pyfloat :=
  match xs with
  | [] => []
  | x :: rest => np_div (x - prev)%F prev :: pct_change x rest
  end.

Definition pct_change_dropna (xs : list pyfloat) : list pyfloat :=
  match xs with
  | [] => []
  | x :: rest => filter (fun r => is_nan r = false) (pct_change x rest)
  end.

Section Forecast.

(** [np.sqrt], [np.std] and [np.exp(np.linspace(-0.5, 0, 20))]. *)
Variable np_sqrt : pyfloat -> pyfloat.
Variable np_std : list pyfloat -> pyfloat.
Variable lookback_weights : list pyfloat.

(** scikit-learn: [StandardScaler.fit_transform], [model.fit] for the
    estimator registered under a name, and [model.predict([x])[0]]. *)
Context {Model : Type}.
Variable fit_transform : list (list pyfloat) -> result (list (list pyfloat)).
Variable fit : string -> list (list pyfloat) -> list pyfloat -> result Model.
Variable predict : Model -> list pyfloat -> result pyfloat.

Definition lookback : nat := 20.

Definition feature_vector (price_data : list pyfloat) (i : nat)
  : result (list pyfloat) :=
  let weighted_prices :=
    zip_with fmul (slice (i - lookback) i price_data) lookback_weights in
  p ← item price_data (i - 1);
  Return
    [ np_mean weighted_prices;
      np_std weighted_prices;
      p;
      if bool_decide (5 <= i)%nat then np_mean (slice (i - 5) i price_data)
      else p;
      if bool_decide (10 <= i)%nat then np_mean (slice (i - 10) i price_data)
      else p ].

(** [for i in range(lookback, len(price_data) - 1)] *)
Definition _prepare_features (price_data : list pyfloat)
  : result (list (list pyfloat) * list pyfloat) :=
  let idx := seq lookback (length price_data - 1 - lookback) in
  features ← mapM (feature_vector price_data) idx;
  targets ← mapM (item price_data) idx;
  Return (features, targets).

(** [np.roll(last_features, -1)] followed by [last_features[-1] = pred]. *)
Definition roll_and_set (last_features : list pyfloat) (pred : pyfloat)
  : result (list pyfloat) :=
  match last_features with
  | [] => Raise IndexError
  | _ :: rest => Return (app rest [pred])
  end.

(** The loop [for day in range(days)] of one model. *)
Fixpoint predict_days (model : Model) (last_features : list pyfloat)
    (days : nat) : result (list pyfloat) :=
  match days with
  | O => Return []
  | S d =>
      pred ← predict model last_features;
      last_features ← roll_and_set last_features pred;
      rest ← predict_days model last_features d;
      Return (py_max (Fin 0) pred :: rest)
  end.

(** The values [pred] of that loop as [model.predict] returns them, before
    [max(0, pred)]: the features of each day are rolled with the value
    itself. *)
Fixpoint raw_predictions (model : Model) (last_features : list pyfloat)
    (days : nat) : result (list pyfloat) :=
  match days with
  | O => Return []
  | S d =>
      pred ← predict model last_features;
      last_features ← roll_and_set last_features pred;
      rest ← raw_predictions model last_features d;
      Return (pred :: rest)
  end.

(** The body of the [try] for one model: its clipped predictions and its
    weight. *)
Definition run_model (name : string) (features : list (list pyfloat))
    (targets : list pyfloat) (days : nat)
  : result (list pyfloat * pyfloat) :=
  features_scaled ← fit_transform features;
  model ← fit name features_scaled targets;
  last_features ← last_item features_scaled;
  model_preds ← predict_days model last_features days;
  match model_weights !! name with
  | Some weight => Return (model_preds, weight)
  | None => Raise KeyError
  end.

(** [for name, model in self.models.items(): try: ... except Exception:
    continue] *)
Fixpoint train_ensemble (names : list string)
    (features : list (list pyfloat)) (targets : list pyfloat) (days : nat)
  : list (list pyfloat * pyfloat) :=
  match names with
  | [] => []
  | name :: rest =>
      match run_model name features targets days with
      | Return r => r :: train_ensemble rest features targets days
      | Raise _ => train_ensemble rest features targets days
      end
  end.

(** [sum(weight * preds[day] for preds, weight in ensemble_predictions)] *)
Definition day_pred (ensemble_predictions : list (list pyfloat * pyfloat))
    (day : nat) : result pyfloat :=
  terms ← mapM (fun pw : list pyfloat * pyfloat =>
                  p ← item pw.1 day; Return (pw.2 * p)%F)
               ensemble_predictions;
  Return (py_sum terms).

Definition _generate_ensemble_predictions (market_data : MarketData)
    (days : Z) : result (list pyfloat) :=
  let close_prices := hist_1y_Close market_data in
  ft ← _prepare_features close_prices;
  let '(features, targets) := ft in
  if bool_decide (length features < 30)%nat then
    c ← last_item close_prices; Return (replicate (Z.to_nat days) c)
  else
    let ensemble_predictions :=
      train_ensemble models features targets (Z.to_nat days) in
    match ensemble_predictions with
    | [] => c ← last_item close_prices; Return (replicate (Z.to_nat days) c)
    | _ => mapM (day_pred ensemble_predictions) (seq 0 (Z.to_nat days))
    end.

(** [series.std()] of pandas: the sample standard deviation, undefined for
    fewer than two values. *)
Definition pd_std (xs : list pyfloat) : pyfloat :=
  match xs with
  | [] | [_] => NaN
  | _ =>
      let n := Fin (inject_Z (Z.of_nat (length xs))) in
      let mean := np_div (py_sum xs) n in
      let squares := map (fun x => ((x - mean) * (x - mean))%F) xs in
      np_sqrt (np_div (py_sum squares) (n - Fin 1)%F)
  end.

Definition effective_vol (market_data : MarketData) : pyfloat :=
  let returns := pct_change_dropna (hist_1y_Close market_data) in
  let volatility := (pd_std returns * np_sqrt (Fin 252))%F in
  let recent_returns := tail_n 20 returns in
  let recent_vol := (pd_std recent_returns * np_sqrt (Fin 252))%F in
  py_max volatility (recent_vol * Fin 1.2)%F.

(** The bounds of day [i] (from 0) for the prediction [pred]. *)
Definition bounds_of (vol : pyfloat) (i : nat) (pred : pyfloat)
  : pyfloat * pyfloat :=
  let z_score := Fin 1.96 in
  let time_vol :=
    (vol * np_sqrt (Fin (inject_Z (Z.of_nat i + 1) / 252)))%F in
  let margin := (z_score * pred * time_vol * Fin 0.7)%F in
  ((pred + margin)%F, py_max (Fin 0) (pred - margin)%F).

(** The predictions are Python floats ([List[float]]): the division of
    the expected return is Python's.  The division by the volatility, a
    NumPy scalar, is NumPy's.  [None] stands for the empty dictionary. *)
Definition _calculate_confidence_intervals (predictions : list pyfloat)
    (market_data : MarketData) : result (option ConfidenceIntervals) :=
  match predictions with
  | [] => Return None
  | current_price :: _ =>
      let vol := effective_vol market_data in
      let bounds := imap (bounds_of vol) predictions in
      final_price ← last_item predictions;
      expected_return ← py_div (final_price - current_price)%F current_price;
      let prob_up :=
        (Fin 0.5 + np_div expected_return (Fin 2 * vol))%F in
      let prob_up := py_max (Fin 0.15) (py_min (Fin 0.85) prob_up) in
      Return (Some (mkIntervals bounds.*1 bounds.*2 (Fin 0.95) prob_up
                      (Fin 1 - prob_up)%F vol))
  end.

End Forecast.

End forecasting_models.

(** ** core/financial_analyzer.py *)

Module financial_analyzer.

Import cache_manager.

Definition positive_words : gset string :=
  list_to_set ["growth"; "increase"; "profit"; "strong"; "excellent";
               "outstanding"; "improved"; "expansion"; "success"].

Definition negative_words : gset string :=
  list_to_set ["decline"; "loss"; "decrease"; "weak"; "poor"; "challenging";
               "difficult"; "concern"; "risk"].

(** The words a question is reduced to. *)
Definition stop_words : list string :=
  ["what"; "how"; "when"; "where"; "why"; "who"; "which"; "the"; "and";
   "or"; "but"].

Definition question_words_of (question : string) : list string :=
  let question_lower := py_lower question in
  map (strip_by (char_in "?.,!()[]"))
    (List.filter
       (fun word => (3 <? String.length word)%nat
                    && negb (bool_decide (word ∈ stop_words)))
       (py_split question_lower)).

(** [[s.strip() for s in text.split('.') if s.strip() and
    len(s.strip()) > 20]] *)
Definition sentences_of (text : string) : list string :=
  map py_strip
    (List.filter
       (fun s => negb (String.eqb (py_strip s) "")
                 && (20 <? String.length (py_strip s))%nat)
       (split_on "."%char text)).

(** The paragraphs are computed and never read. *)
Definition paragraphs_of (text : string) : list string :=
  map py_strip
    (List.filter
       (fun p => negb (String.eqb (py_strip p) "")
                 && (50 <? String.length (py_strip p))%nat)
       (split_on (ascii_of_nat 10) text)).

Definition is_digit (c : ascii) : bool :=
  let n := nat_of_ascii c in ((48 <=? n) && (n <=? 57))%nat.

(** [re.search(r'\d+', s)] finds a match. *)
Fixpoint has_digit (s : string) : bool :=
  match s with
  | EmptyString => false
  | String c rest => is_digit c || has_digit rest
  end.

Definition financial_terms : list string :=
  ["million"; "billion"; "%"; "quarter"; "year"; "revenue"; "profit";
   "growth"].

Definition importance_indicators : list string :=
  ["important"; "key"; "main"; "significant"; "major"].

(** One round of the scoring loop: [None] is the [continue]. *)
Definition score_sentence (question_words : list string) (n_sentences : nat)
    (i : nat) (sentence : string) : option (string * nat * nat) :=
  let sentence_lower := py_lower sentence in
  let matches :=
    length (List.filter (fun word => contains word sentence_lower)
                        question_words) in
  if (matches =? 0)%nat then None else
  let score := (matches * 4)%nat in
  let score := if has_digit sentence then (score + 3)%nat else score in
  let score :=
    if existsb (fun term => contains term sentence_lower) financial_terms
    then (score + 2)%nat else score in
  let score :=
    if existsb (fun ind => contains ind sentence_lower) importance_indicators
    then (score + 2)%nat else score in
  (* i < len(sentences) * 0.3 *)
  let score :=
    if (10 * i <? 3 * n_sentences)%nat then (score + 1)%nat else score in
  Some (sentence, score, i).

(** [sort(key=lambda x: x[1], reverse=True)]: by decreasing score, entries
    of equal score in their original order. *)
Fixpoint insert_by_score (x : string * nat * nat)
    (l : list (string * nat * nat)) : list (string * nat * nat) :=
  match l with
  | [] => [x]
  | y :: rest =>
      if (x.1.2 <? y.1.2)%nat then y :: insert_by_score x rest
      else x :: l
  end.

Definition sort_by_score (l : list (string * nat * nat))
  : list (string * nat * nat) :=
  foldr insert_by_score [] l.

Definition no_content : string :=
  "No content available to answer the question.".

Section Analyzer.

(** TextBlob's polarity, a float within [-1.0, 1.0]. *)
Variable textblob_polarity : string -> Q.

Definition analyze_sentiment (text : string) : string * pyfloat :=
  let polarity := Fin (textblob_polarity text) in
  let words : gset string := list_to_set (py_split (py_lower text)) in
  let positive_count := size (words ∩ positive_words) in
  let negative_count := size (words ∩ negative_words) in
  let polarity :=
    if (negative_count <? positive_count)%nat
    then py_max polarity (Fin 0.1)
    else if (positive_count <? negative_count)%nat
    then py_min polarity (Fin (-0.1))
    else polarity in
  let sentiment :=
    if (polarity >? Fin 0.1)%F then "Positive"
    else if (polarity <? Fin (-0.1))%F then "Negative"
    else "Neutral" in
  (sentiment, polarity).

(** The two [re.findall] calls of the fallback (figures and dates) and
    [list(set(xs))], whose order the language leaves open. *)
Variable findall_numbers : string -> list string.
Variable findall_dates : string -> list string.
Variable list_of_set : list string -> list string.

Definition _get_fallback_answer (text question : string) : string :=
  let question_words := question_words_of question in
  let sentences := sentences_of text in
  match sentences with
  | [] => no_content
  | _ =>
    let sentence_scores :=
      omap id (imap (score_sentence question_words (length sentences))
                    sentences) in
    match sentence_scores with
    | [] =>
        "I couldn't find specific information to answer '" +:+ question
        +:+ "' in the document. The document appears to cover other topics that might be of interest."
    | _ =>
      let sentence_scores := sort_by_score sentence_scores in
      let top_sentences := take 5 sentence_scores in
      let top_score :=
        match top_sentences with
        | t :: _ => t.1.2
        | [] => O
        end in
      let primary_sentence :=
        match top_sentences with
        | t :: _ => t.1.1
        | [] => ""
        end in
      let answer_parts := ["**Primary Answer:**" +:+ nl +:+ primary_sentence] in
      let supporting_sentences :=
        map (fun t : string * nat * nat => t.1.1)
          (List.filter
             (fun t : string * nat * nat => (top_score <=? 2 * t.1.2)%nat)
             (take 2 (drop 1 top_sentences))) in
      let answer_parts :=
        match supporting_sentences with
        | [] => answer_parts
        | _ =>
            app (app answer_parts
                   [nl +:+ nl +:+ "**Supporting Information:**"])
                (imap (fun i support =>
                         nl +:+ str_of_int (Z.of_nat i + 1) +:+ ". "
                         +:+ support)
                      supporting_sentences)
        end in
      let relevant :=
        map (fun t : string * nat * nat => t.1.1) (take 3 top_sentences) in
      let all_relevant_text := join " " relevant in
      let numbers := findall_numbers all_relevant_text in
      let dates := findall_dates all_relevant_text in
      let answer_parts :=
        match numbers with
        | [] => answer_parts
        | _ =>
            app answer_parts
              [nl +:+ nl +:+ "**Key Figures:** "
               +:+ join ", " (take 5 (list_of_set numbers))]
        end in
      let answer_parts :=
        match dates with
        | [] => answer_parts
        | _ =>
            app answer_parts
              [nl +:+ nl +:+ "**Relevant Dates:** "
               +:+ join ", " (take 3 (list_of_set dates))]
        end in
      let answer_parts :=
        if (3 <? length sentence_scores)%nat
        then app answer_parts
               [nl +:+ nl
                +:+ "**Additional Context:** The document contains "
                +:+ str_of_int (Z.of_nat (length sentence_scores))
                +:+ " relevant sections related to your question, providing comprehensive coverage of this topic."]
        else answer_parts in
      let related_topics :=
        omap
          (fun word =>
             (fun t : string * nat * nat =>
                let sentence := t.1.1 in
                if (100 <? String.length sentence)%nat
                then str_take 100 sentence +:+ "..."
                else sentence)
             <$> List.find
                   (fun t : string * nat * nat =>
                      contains word (py_lower t.1.1)
                      && negb (bool_decide (t.1.1 ∈ relevant)))
                   (take 3 (drop 3 sentence_scores)))
          question_words in
      let answer_parts :=
        match related_topics with
        | [] => answer_parts
        | topic :: _ =>
            app answer_parts
              [nl +:+ nl +:+ "**Related Information:** " +:+ topic]
        end in
      join "" answer_parts
    end
  end.

(** The hosted model: the request sent and what comes back. *)
Record Request : Type := mkRequest {
  url : string;
  x_goog_api_key : string;
  prompt : string
}.

(** A response: its status code and the text found at
    [candidates[0].content.parts[0].text] of its JSON body; [None] when a
    key of that path is missing or a list on it is empty, an exception when
    the body does not parse. *)
Record Response : Type := mkResponse {
  status_code : Z;
  candidate_text : result (option string)
}.

Variable requests_post : Request -> result Response.

Definition gemini_url : string :=
  "https://generativelanguage.googleapis.com/v1beta/models/gemini-2.0-flash:generateContent".

Definition prompt_head : string :=
  "You are a professional financial analyst. Analyze this financial document and provide a comprehensive, detailed answer to the question."
  +:+ nl +:+ nl +:+ "DOCUMENT CONTENT:" +:+ nl.

Definition prompt_tail : string :=
  nl +:+ nl
  +:+ "Please provide a thorough, detailed response that:" +:+ nl
  +:+ "1. Directly addresses the question with specific information from the document" +:+ nl
  +:+ "2. Provides relevant context and background information" +:+ nl
  +:+ "3. Includes specific numbers, dates, percentages, or financial figures when available" +:+ nl
  +:+ "4. Explains the significance or implications of the findings" +:+ nl
  +:+ "5. Offers additional insights or related information from the document" +:+ nl
  +:+ "6. Uses professional financial terminology appropriately" +:+ nl
  +:+ "7. Structures the response with clear sections or bullet points when helpful" +:+ nl
  +:+ nl
  +:+ "Make your response comprehensive (200-400 words) while remaining accurate and based solely on the document content. If the document doesn't contain sufficient information to answer the question, explain what information is available and suggest related topics the document does cover.".

Definition build_prompt (text question : string) : string :=
  prompt_head +:+ str_take 8000 text +:+ nl +:+ nl +:+ "QUESTION: "
  +:+ question +:+ prompt_tail.

Definition no_response : string :=
  "I couldn't generate a response. Please try rephrasing your question.".

(** [_get_ai_answer]: the answer and the request it sent. *)
Definition _get_ai_answer (api_key text question : string)
  : string * list Request :=
  let request := mkRequest gemini_url api_key (build_prompt text question) in
  let answer :=
    match requests_post request with
    | Return response =>
        if status_code response =? 200 then
          match candidate_text response with
          | Return (Some t) => py_strip t
          | Return None => no_response
          | Raise _ => _get_fallback_answer text question
          end
        else no_response
    | Raise _ => _get_fallback_answer text question
    end in
  (answer, [request]).

(** The parameters of a cached answer, the built-in [hash] of a string and
    the two library calls of the cache key. *)
Record QAParams : Type := mkQAParams {
  text_hash : Z;
  question_of : string
}.

Variable py_hash : string -> Z.
Variable json_dumps : QAParams -> string.
Variable md5_hexdigest : string -> string.

(** What [ai_powered_qa] leaves behind: the cache and the requests sent to
    the hosted model. *)
Record Outcome : Type := mkOutcome {
  answer : string;
  cache_after : CacheManager (Data := string);
  requests_sent : list Request
}.

(** [api_key] is [os.getenv('OPENAI_API_KEY')], [None] when unset; the
    cache is read at [now_get] and written at [now_set]. *)
Definition ai_powered_qa (api_key : option string) (text question : string)
    (now_get now_set : Z) (cache : CacheManager (Data := string))
  : result Outcome :=
  let cache_params := mkQAParams (py_hash (str_take 1000 text)) question in
  got ← get json_dumps md5_hexdigest "qa_response" cache_params 60
          now_get cache;
  let '(cached_answer, cache) := got in
  match cached_answer with
  | Some a => Return (mkOutcome a cache [])
  | None =>
      let '(answer, sent) :=
        match api_key with
        | Some k =>
            if negb (String.eqb k "") && negb (String.eqb k "demo")
            then _get_ai_answer k text question
            else (_get_fallback_answer text question, [])
        | None => (_get_fallback_answer text question, [])
        end in
      let cache :=
        set json_dumps md5_hexdigest "qa_response" cache_params answer
          now_set cache in
      Return (mkOutcome answer cache sent)
  end.

End Analyzer.

End financial_analyzer.

(** ** file_processor.py *)

Module file_processor.

(** An uploaded file: its name, its declared MIME type and its bytes. *)
Record UploadedFile : Type := mkFile {
  name : string;
  type : string;
  getvalue : list Byte.byte
}.

(** A dictionary literal. *)
Definition dict (items : list (string * pyval)) : gmap string pyval :=
  list_to_map items.

Definition format_entry (format_name icon : string) : pyval :=
  VDict (dict [("name", VStr format_name); ("icon", VStr icon)]).

(** The icons are kept as the bytes of their UTF-8 encoding. *)
Definition supported_formats : gmap string pyval :=
  dict
    [ ("text/plain", format_entry "Text File" "📄");
      ("application/pdf", format_entry "PDF Document" "📕");
      ("application/vnd.openxmlformats-officedocument.wordprocessingml.document",
       format_entry "Word Document" "📘");
      ("application/vnd.openxmlformats-officedocument.presentationml.presentation",
       format_entry "PowerPoint Presentation" "📊");
      ("application/vnd.openxmlformats-officedocument.spreadsheetml.sheet",
       format_entry "Excel Spreadsheet" "📗");
      ("application/vnd.ms-excel",
       format_entry "Excel Spreadsheet (Legacy)" "📗");
      ("text/csv", format_entry "CSV File" "📋");
      ("application/json", format_entry "JSON File" "🔧");
      ("application/xml", format_entry "XML File" "🔧");
      ("text/xml", format_entry "XML File" "🔧") ].

Definition get_file_info (uploaded_file : UploadedFile)
  : gmap string pyval :=
  let size := Z.of_nat (length (getvalue uploaded_file)) in
  dict
    [ ("name", VStr (name uploaded_file));
      ("type", VStr (type uploaded_file));
      ("size_bytes", VInt size);
      ("size_mb", VNum (Fin (inject_Z size / 1048576)));
      ("format_info",
       dict_get supported_formats (type uploaded_file)
         (format_entry "Unknown" "❓")) ].

(** [len(content)] and [len(content.split())], the two entries every
    routine writes. *)
Definition characters_of (content : string) : pyval := VInt (py_len content).
Definition words_of (content : string) : pyval :=
  VInt (Z.of_nat (length (py_split content))).

(** What a routine hands back: [(content, metadata)], each possibly
    [None]. *)
Abbreviation extraction :=
  (option string * option (gmap string pyval))%type.

Definition failed : extraction := (None, None).

(** [try: ... except Exception: return None, None] *)
Definition guarded (body : result extraction) : result extraction :=
  match body with
  | Return r => Return r
  | Raise _ => Return failed
  end.

(** *** The parsed documents, as the routines read them *)

(** A PDF page: [extract_text()], [extract_tables()] (a table is a list of
    rows, a row a list of cells, a cell a string or [None]) and
    [len(page.images)]. *)
Record Page : Type := mkPage {
  extract_text : option string;
  extract_tables : list (list (list (option string)));
  images : nat
}.

(** A Word section: the paragraph texts of its header and of its footer,
    [None] when the section has none. *)
Record DocxSection : Type := mkSection {
  header : option (list string);
  footer : option (list string)
}.

(** A Word document: paragraph texts, tables (rows of cell texts) and
    sections; reading a section may raise. *)
Record Docx : Type := mkDocx {
  paragraphs : list string;
  tables : list (list (list string));
  sections : list (result DocxSection)
}.

(** A slide shape: its text, when it has one, and its table, when it has
    one. *)
Record Shape : Type := mkShape {
  shape_text : option string;
  shape_table : option (list (list string))
}.

(** [df[col].describe()] *)
Record Describe : Type := mkDescribe {
  d_count : pyfloat;
  d_mean : pyfloat;
  d_std : pyfloat;
  d_min : pyfloat;
  d_max : pyfloat
}.

(** A data frame: its shape, its column labels, [str(dtype)] per column,
    the numeric columns with their statistics, its rows (per cell the label
    and [str(val)], or [None] for a missing value) and
    [df.isnull().sum().sum()]. *)
Record DataFrame : Type := mkFrame {
  shape : nat * nat;
  columns : list string;
  dtypes : list (string * string);
  numeric_columns : list (string * Describe);
  iterrows : list (list (string * option string));
  missing_values : Z
}.

Definition df_len (df : DataFrame) : nat := (shape df).1.
Definition df_empty (df : DataFrame) : bool :=
  ((shape df).1 =? 0)%nat || ((shape df).2 =? 0)%nat.

(** [" | ".join(f"{col}: {val}" for the values present)], with its line
    break, or nothing for a row without values. *)
Definition row_line (row : list (string * option string)) : string :=
  let row_data :=
    omap (fun cv : string * option string =>
            (fun v => cv.1 +:+ ": " +:+ v) <$> cv.2) row in
  match row_data with
  | [] => ""
  | _ => join " | " row_data +:+ nl
  end.

Definition concat_map {A : Type} (f : A -> string) (l : list A) : string :=
  foldl (fun acc x => acc +:+ f x) "" l.

Definition str_of_nat (n : nat) : string := str_of_int (Z.of_nat n).

Definition times_sign : string := String (ascii_of_nat 215) "".

Definition banner (title : string) : string :=
  title +:+ nl +:+ repeat_char "="%char 50 +:+ nl +:+ nl.

Section Processors.

(** [str(b, "utf-8")] and [str(b, "latin-1")]. *)
Variable decode_utf8 : list Byte.byte -> result string.
Variable decode_latin1 : list Byte.byte -> result string.

(** pdfplumber, python-docx, python-pptx and pandas. *)
Variable pdfplumber_open : list Byte.byte -> result (list Page).
Variable docx_Document : list Byte.byte -> result Docx.
Variable pptx_Presentation : list Byte.byte -> result (list (list Shape)).
Variable pd_read_excel : list Byte.byte -> result (list (string * DataFrame)).
Variable pd_read_csv : list Byte.byte -> result DataFrame.

(** [f"{x:.2f}"], [f"{x:.4f}"] and [f"{x}"]. *)
Variable format_2f : pyfloat -> string.
Variable format_4f : pyfloat -> string.
Variable str_of_float : pyfloat -> string.

(** json and ElementTree: [json.load] followed by
    [json.dumps(data, indent=2, ensure_ascii=False)] and
    [type(data).__name__]; [ET.fromstring(s).tag]. *)
Variable json_load_dumps : list Byte.byte -> result (string * string).
Variable xml_root_tag : string -> result string.

Definition text_metadata (encoding content : string) : gmap string pyval :=
  dict
    [ ("file_type", VStr "text");
      ("encoding", VStr encoding);
      ("lines", VInt (Z.of_nat (length (split_on (ascii_of_nat 10) content))));
      ("characters", characters_of content);
      ("words", words_of content) ].

Definition _process_text (uploaded_file : UploadedFile) : result extraction :=
  match decode_utf8 (getvalue uploaded_file) with
  | Return content =>
      Return (Some content, Some (text_metadata "utf-8" content))
  | Raise UnicodeDecodeError =>
      guarded
        (content ← decode_latin1 (getvalue uploaded_file);
         Return (Some content, Some (text_metadata "latin-1" content)))
  | Raise e => Raise e
  end.

Definition cell_text (cell : option string) : string :=
  match cell with
  | Some s => s
  | None => ""
  end.

Definition pdf_table_text (i j : nat) (table : list (list (option string)))
  : string :=
  nl +:+ "--- Table " +:+ str_of_nat (j + 1) +:+ " on Page "
  +:+ str_of_nat (i + 1) +:+ " ---" +:+ nl
  +:+ concat_map
        (fun row : list (option string) =>
           match row with
           | [] => ""
           | _ => join " | " (map cell_text row) +:+ nl
           end)
        table.

Definition pdf_page_text (i : nat) (page : Page) : string :=
  (match extract_text page with
   | Some page_text =>
       if String.eqb page_text "" then ""
       else nl +:+ "--- Page " +:+ str_of_nat (i + 1) +:+ " ---" +:+ nl
            +:+ page_text +:+ nl
   | None => ""
   end)
  +:+ concat_map id (imap (pdf_table_text i) (extract_tables page)).

Definition _process_pdf (uploaded_file : UploadedFile) : result extraction :=
  guarded
    (pages ← pdfplumber_open (getvalue uploaded_file);
     let page_count := length pages in
     let content := concat_map id (imap pdf_page_text pages) in
     let tables_found :=
       foldl (fun n page => (n + length (extract_tables page))%nat) O pages in
     let images_found :=
       foldl (fun n page => (n + images page)%nat) O pages in
     Return
       (Some content,
        Some (dict
          [ ("file_type", VStr "pdf");
            ("pages", VInt (Z.of_nat page_count));
            ("tables", VInt (Z.of_nat tables_found));
            ("images", VInt (Z.of_nat images_found));
            ("characters", characters_of content);
            ("words", words_of content) ]))).

(** A table row of cell texts, with its line break, or nothing for a
    blank row. *)
Definition text_row_line (row : list string) : string :=
  let row_text := join " | " (map py_strip row) in
  if String.eqb (py_strip row_text) "" then "" else row_text +:+ nl.

(** The loop over the sections, inside its own [try]/[except: pass]: it
    stops at the first section that raises and keeps what it has. *)
Fixpoint docx_sections (secs : list (result DocxSection)) (content : string)
  : string :=
  match secs with
  | [] => content
  | Raise _ :: _ => content
  | Return sec :: rest =>
      let content :=
        match header sec with
        | Some ps =>
            let header_text := concat_map id ps in
            if String.eqb (py_strip header_text) "" then content
            else "HEADER: " +:+ header_text +:+ nl +:+ content
        | None => content
        end in
      let content :=
        match footer sec with
        | Some ps =>
            let footer_text := concat_map id ps in
            if String.eqb (py_strip footer_text) "" then content
            else content +:+ nl +:+ "FOOTER: " +:+ footer_text
        | None => content
        end in
      docx_sections rest content
  end.

Definition _process_docx (uploaded_file : UploadedFile) : result extraction :=
  guarded
    (doc ← docx_Document (getvalue uploaded_file);
     let kept :=
       List.filter (fun p => negb (String.eqb (py_strip p) ""))
                   (paragraphs doc) in
     let content := concat_map (fun p => p +:+ nl) kept in
     let paragraph_count := length kept in
     let table_count := length (tables doc) in
     let content :=
       content +:+
       concat_map id
         (imap (fun i table =>
                  nl +:+ "--- Table " +:+ str_of_nat (i + 1) +:+ " ---"
                  +:+ nl +:+ concat_map text_row_line table)
               (tables doc)) in
     let content := docx_sections (sections doc) content in
     Return
       (Some content,
        Some (dict
          [ ("file_type", VStr "docx");
            ("paragraphs", VInt (Z.of_nat paragraph_count));
            ("tables", VInt (Z.of_nat table_count));
            ("sections", VInt (Z.of_nat (length (sections doc))));
            ("characters", characters_of content);
            ("words", words_of content) ]))).

(** One shape: the text it adds, given the tables found so far, and the
    tables found after it. *)
Definition pptx_shape (acc : string * nat) (shape : Shape) : string * nat :=
  let '(content, tables_found) := acc in
  let content :=
    match shape_text shape with
    | Some t =>
        if String.eqb (py_strip t) "" then content
        else content +:+ "[Text Box]: " +:+ t +:+ nl
    | None => content
    end in
  match shape_table shape with
  | Some table =>
      let tables_found := S tables_found in
      (content +:+ "[Table " +:+ str_of_nat tables_found +:+ "]:" +:+ nl
       +:+ concat_map text_row_line table +:+ nl,
       tables_found)
  | None => (content, tables_found)
  end.

Definition pptx_slide (acc : string * nat * nat) (islide : nat * list Shape)
  : string * nat * nat :=
  let '(content, tables_found, total_shapes) := acc in
  let '(i, slide) := islide in
  let content :=
    content +:+ nl +:+ "=== SLIDE " +:+ str_of_nat i +:+ " ===" +:+ nl in
  let '(content, tables_found) :=
    foldl pptx_shape (content, tables_found) slide in
  let slide_shapes := length slide in
  (content +:+ "[Slide " +:+ str_of_nat i +:+ " contains "
   +:+ str_of_nat slide_shapes +:+ " elements]" +:+ nl,
   tables_found, (total_shapes + slide_shapes)%nat).

Definition _process_pptx (uploaded_file : UploadedFile) : result extraction :=
  guarded
    (slides ← pptx_Presentation (getvalue uploaded_file);
     let slide_count := length slides in
     let '(content, tables_found, total_shapes) :=
       foldl pptx_slide ("", O, O) (imap (fun i s => (S i, s)) slides) in
     Return
       (Some content,
        Some (dict
          [ ("file_type", VStr "pptx");
            ("slides", VInt (Z.of_nat slide_count));
            ("total_shapes", VInt (Z.of_nat total_shapes));
            ("tables", VInt (Z.of_nat tables_found));
            ("characters", characters_of content);
            ("words", words_of content) ]))).

Definition excel_sheet (sheet : string * DataFrame) : string :=
  let '(sheet_name, df) := sheet in
  nl +:+ "=== SHEET: " +:+ sheet_name +:+ " ===" +:+ nl
  +:+ (if df_empty df then "Empty sheet" +:+ nl
       else
         let '(sheet_rows, sheet_cols) := shape df in
         let sample_size := Nat.min 20 (df_len df) in
         "Dimensions: " +:+ str_of_nat sheet_rows +:+ " rows " +:+ times_sign
         +:+ " " +:+ str_of_nat sheet_cols +:+ " columns" +:+ nl
         +:+ "Columns: " +:+ join ", " (columns df) +:+ nl +:+ nl
         +:+ (match numeric_columns df with
              | [] => ""
              | cols =>
                  "NUMERIC ANALYSIS:" +:+ nl
                  +:+ concat_map
                        (fun cs : string * Describe =>
                           cs.1 +:+ ": Mean=" +:+ format_2f (d_mean cs.2)
                           +:+ ", Std=" +:+ format_2f (d_std cs.2)
                           +:+ ", Range=[" +:+ format_2f (d_min cs.2)
                           +:+ ", " +:+ format_2f (d_max cs.2) +:+ "]" +:+ nl)
                        cols
                  +:+ nl
              end)
         +:+ "SAMPLE DATA:" +:+ nl
         +:+ concat_map row_line (take sample_size (iterrows df))
         +:+ (if (sample_size <? df_len df)%nat
              then "... (" +:+ str_of_nat (df_len df - sample_size)
                   +:+ " more rows)" +:+ nl
              else ""))
  +:+ nl.

Definition nonempty_sheets (excel_data : list (string * DataFrame))
  : list DataFrame :=
  List.filter (fun df => negb (df_empty df)) excel_data.*2.

Definition _process_excel (uploaded_file : UploadedFile) : result extraction :=
  guarded
    (excel_data ← pd_read_excel (getvalue uploaded_file);
     let content := concat_map excel_sheet excel_data in
     let counted := nonempty_sheets excel_data in
     let total_rows := foldl (fun n df => (n + (shape df).1)%nat) O counted in
     let total_cols := foldl (fun n df => (n + (shape df).2)%nat) O counted in
     let numeric_cols :=
       foldl (fun n df => (n + length (numeric_columns df))%nat) O counted in
     Return
       (Some content,
        Some (dict
          [ ("file_type", VStr "excel");
            ("sheets", VInt (Z.of_nat (length excel_data)));
            ("total_rows", VInt (Z.of_nat total_rows));
            ("total_columns", VInt (Z.of_nat total_cols));
            ("numeric_columns", VInt (Z.of_nat numeric_cols));
            ("characters", characters_of content);
            ("words", words_of content) ]))).

Definition _process_csv (uploaded_file : UploadedFile) : result extraction :=
  guarded
    (df ← pd_read_csv (getvalue uploaded_file);
     let '(rows, cols) := shape df in
     let numeric_cols := numeric_columns df in
     let sample_size := Nat.min 30 (df_len df) in
     let content :=
       banner "CSV FILE ANALYSIS"
       +:+ "Dimensions: " +:+ str_of_nat rows +:+ " rows " +:+ times_sign
       +:+ " " +:+ str_of_nat cols +:+ " columns" +:+ nl
       +:+ "Columns: " +:+ join ", " (columns df) +:+ nl +:+ nl
       +:+ "DATA TYPES:" +:+ nl
       +:+ concat_map (fun cd : string * string =>
                         cd.1 +:+ ": " +:+ cd.2 +:+ nl) (dtypes df)
       +:+ nl
       +:+ (match numeric_cols with
            | [] => ""
            | _ =>
                "STATISTICAL SUMMARY:" +:+ nl
                +:+ concat_map
                      (fun cs : string * Describe =>
                         nl +:+ cs.1 +:+ ":" +:+ nl
                         +:+ "  Count: " +:+ str_of_float (d_count cs.2) +:+ nl
                         +:+ "  Mean: " +:+ format_4f (d_mean cs.2) +:+ nl
                         +:+ "  Std: " +:+ format_4f (d_std cs.2) +:+ nl
                         +:+ "  Min: " +:+ format_4f (d_min cs.2) +:+ nl
                         +:+ "  Max: " +:+ format_4f (d_max cs.2) +:+ nl)
                      numeric_cols
                +:+ nl
            end)
       +:+ "SAMPLE DATA (First 30 rows):" +:+ nl
       +:+ concat_map row_line (take sample_size (iterrows df))
       +:+ (if (sample_size <? df_len df)%nat
            then nl +:+ "... (" +:+ str_of_nat (df_len df - sample_size)
                 +:+ " more rows)" +:+ nl
            else "") in
     Return
       (Some content,
        Some (dict
          [ ("file_type", VStr "csv");
            ("rows", VInt (Z.of_nat rows));
            ("columns", VInt (Z.of_nat cols));
            ("numeric_columns", VInt (Z.of_nat (length numeric_cols)));
            ("missing_values", VInt (missing_values df));
            ("characters", characters_of content);
            ("words", words_of content) ]))).

Definition _process_json (uploaded_file : UploadedFile) : result extraction :=
  guarded
    (data ← json_load_dumps (getvalue uploaded_file);
     let '(dumped, type_name) := data in
     let content := banner "JSON FILE ANALYSIS" +:+ dumped in
     Return
       (Some content,
        Some (dict
          [ ("file_type", VStr "json");
            ("structure", VStr type_name);
            ("characters", characters_of content);
            ("words", words_of content) ]))).

Definition _process_xml (uploaded_file : UploadedFile) : result extraction :=
  guarded
    (content_str ← decode_utf8 (getvalue uploaded_file);
     root_tag ← xml_root_tag content_str;
     let content :=
       banner "XML FILE ANALYSIS"
       +:+ "Root Element: " +:+ root_tag +:+ nl +:+ nl
       +:+ "XML Content:" +:+ nl
       +:+ content_str in
     Return
       (Some content,
        Some (dict
          [ ("file_type", VStr "xml");
            ("root_element", VStr root_tag);
            ("characters", characters_of content);
            ("words", words_of content) ]))).

(** The routing table of [process_file]. *)
Definition processors
  : gmap string (UploadedFile -> result extraction) :=
  list_to_map
    [ ("text/plain", _process_text);
      ("application/pdf", _process_pdf);
      ("application/vnd.openxmlformats-officedocument.wordprocessingml.document",
       _process_docx);
      ("application/vnd.openxmlformats-officedocument.presentationml.presentation",
       _process_pptx);
      ("application/vnd.openxmlformats-officedocument.spreadsheetml.sheet",
       _process_excel);
      ("application/vnd.ms-excel", _process_excel);
      ("text/csv", _process_csv);
      ("application/json", _process_json);
      ("application/xml", _process_xml);
      ("text/xml", _process_xml) ].

(** [metadata.update(file_info)]: the entries of [file_info] win. *)
Definition update (metadata file_info : gmap string pyval)
  : gmap string pyval :=
  file_info ∪ metadata.

(** [process_file]: the banners it prints are left out.  The outer
    [try]/[except Exception] turns every exception into [(None, None)]. *)
Definition process_file (uploaded_file : UploadedFile) : extraction :=
  let file_info := get_file_info uploaded_file in
  let file_type := type uploaded_file in
  match processors !! file_type with
  | Some processor =>
      match processor uploaded_file with
      | Return (Some content, metadata) =>
          if String.eqb content "" then failed
          else match metadata with
               | Some metadata => (Some content, Some (update metadata file_info))
               | None => failed
               end
      | Return (None, _) => failed
      | Raise _ => failed
      end
  | None => failed
  end.

End Processors.

End file_processor.

(** * Properties *)

(** ** Comparisons on rationals and floats *)

Lemma Qltb_lt (x y : Q) : Qltb x y = true <-> (x < y)%Q.
Proof.
  unfold Qltb. rewrite negb_true_iff.
  split; intros H.
  - apply Qnot_le_lt. intros Hle. apply Qle_bool_iff in Hle. congruence.
  - destruct (Qle_bool y x) eqn:E; [|reflexivity].
    apply Qle_bool_iff in E. apply Qle_not_lt in E. contradiction.
Qed.

Lemma Qltb_ge (x y : Q) : Qltb x y = false <-> (y <= x)%Q.
Proof.
  unfold Qltb. rewrite negb_false_iff. apply Qle_bool_iff.
Qed.

(** ** core/cache_manager.py *)

Module cache_manager_facts.

Import cache_manager.

Lemma timedelta_minutes_value (m d : Z) :
  timedelta_minutes m = Return d -> d = m * microseconds_per_minute.
Proof.
  unfold timedelta_minutes. intros H.
  destruct (_ && _); [|discriminate]. by inversion H.
Qed.

Section Facts.

Context {Data Params : Type}.
Variable json_dumps : Params -> string.
Variable md5_hexdigest : string -> string.

Abbreviation key := (_generate_key json_dumps md5_hexdigest).
Abbreviation get := (get (Data := Data) json_dumps md5_hexdigest).
Abbreviation set := (set (Data := Data) json_dumps md5_hexdigest).

Lemma store_track f (c : CacheManager (Data := Data)) :
  cache_store (track f c) = cache_store c.
Proof. unfold track. by destruct (_use_session_state c). Qed.

Lemma store_set prefix params v now c :
  cache_store (set prefix params v now c)
  = <[key prefix params := mkItem v now]> (cache_store c).
Proof. reflexivity. Qed.

(** A key that is not in the store is a miss for every TTL and instant:
    no [timedelta] is built. *)
Lemma get_absent prefix params ttl_minutes now c :
  cache_store c !! key prefix params = None ->
  get prefix params ttl_minutes now c
  = Return (None, track track_cache_miss c).
Proof. intros H. unfold cache_manager.get. by rewrite H. Qed.

Lemma get_fresh prefix params ttl_minutes ttl now c cached :
  cache_store c !! key prefix params = Some cached ->
  timedelta_minutes ttl_minutes = Return ttl ->
  now - timestamp cached < ttl ->
  get prefix params ttl_minutes now c
  = Return (Some (data cached), track track_cache_hit c).
Proof.
  intros Hk Ht Hlt. unfold cache_manager.get. rewrite Hk, Ht. simpl.
  destruct (Z.ltb_spec (now - timestamp cached) ttl); [done | lia].
Qed.

Lemma get_stale prefix params ttl_minutes ttl now c cached :
  cache_store c !! key prefix params = Some cached ->
  timedelta_minutes ttl_minutes = Return ttl ->
  ttl <= now - timestamp cached ->
  get prefix params ttl_minutes now c
  = Return (None,
      track track_cache_miss
        (with_store c (delete (key prefix params) (cache_store c)))).
Proof.
  intros Hk Ht Hge. unfold cache_manager.get. rewrite Hk, Ht. simpl.
  destruct (Z.ltb_spec (now - timestamp cached) ttl); [lia | done].
Qed.

(** C1.  After [set] stores a value at instant [t_set], a [get] with the
    same prefix and parameters at instant [t_get], with a TTL of
    [ttl_minutes] that [timedelta] accepts (its duration is [ttl]
    microseconds, 60 000 000 per minute), returns the stored value when
    [t_get - t_set < ttl] and [None] when [ttl <= t_get - t_set]. *)
Theorem get_after_set prefix params (v : Data) ttl_minutes ttl t_set t_get c
    (Httl : timedelta_minutes ttl_minutes = Return ttl) :
  ttl = ttl_minutes * 60000000
  /\ (t_get - t_set < ttl ->
      returned (get prefix params ttl_minutes t_get
                  (set prefix params v t_set c))
      = Return (Some v))
  /\ (ttl <= t_get - t_set ->
      returned (get prefix params ttl_minutes t_get
                  (set prefix params v t_set c))
      = Return None).
Proof.
  split; [exact (timedelta_minutes_value _ _ Httl)|].
  assert (Hk : cache_store (set prefix params v t_set c)
               !! key prefix params = Some (mkItem v t_set))
    by (rewrite store_set; apply lookup_insert_eq).
  split; intros H.
  - by rewrite (get_fresh _ _ _ _ _ _ _ Hk Httl H).
  - by rewrite (get_stale _ _ _ _ _ _ _ Hk Httl H).
Qed.

(** C9.  A [get] that finds an entry at least as old as its TTL removes
    the entry and returns [None]; every later [get] of the key, whatever
    its TTL and instant, returns [None] too, although the store before the
    removal serves the entry to any [get] whose TTL exceeds its age.  A
    [set], on every cache, changes the entry of its own key only: every
    other key keeps its value and timestamp, and the session flag and the
    monitor are untouched. *)
Theorem get_evicts_and_set_frames prefix params :
  (forall ttl_minutes ttl now (c : CacheManager (Data := Data)) cached,
      cache_store c !! key prefix params = Some cached ->
      timedelta_minutes ttl_minutes = Return ttl ->
      ttl <= now - timestamp cached ->
      exists c',
        get prefix params ttl_minutes now c = Return (None, c')
        /\ cache_store c' = delete (key prefix params) (cache_store c)
        /\ (forall ttl_minutes' now',
              returned (get prefix params ttl_minutes' now' c')
              = Return None)
        /\ (forall ttl_minutes' ttl' now',
              timedelta_minutes ttl_minutes' = Return ttl' ->
              now' - timestamp cached < ttl' ->
              returned (get prefix params ttl_minutes' now' c)
              = Return (Some (data cached))))
  /\ (forall (c : CacheManager (Data := Data)) v t k,
        k <> key prefix params ->
        cache_store (set prefix params v t c) !! k = cache_store c !! k)
  /\ (forall (c : CacheManager (Data := Data)) v t,
        cache_store (set prefix params v t c) !! key prefix params
        = Some (mkItem v t)
        /\ _use_session_state (set prefix params v t c)
           = _use_session_state c
        /\ performance_monitor (set prefix params v t c)
           = performance_monitor c).
Proof.
  split; [|split].
  - intros ttl_minutes ttl now c cached Hk Httl Hold.
    eexists. split; [exact (get_stale _ _ _ _ _ _ _ Hk Httl Hold)|].
    split; [by rewrite store_track|].
    split.
    + intros ttl_minutes' now'. rewrite get_absent; [done|].
      rewrite store_track. apply lookup_delete_eq.
    + intros ttl_minutes' ttl' now' Ht Hlt.
      by rewrite (get_fresh _ _ _ _ _ _ _ Hk Ht Hlt).
  - intros c v t k Hne. rewrite store_set.
    by apply lookup_insert_ne.
  - intros c v t. split; [|split; reflexivity].
    rewrite store_set. apply lookup_insert_eq.
Qed.

End Facts.

(** The round trip on a one-hour TTL: served after 59 minutes, gone after
    60. *)
Lemma get_after_set_witness :
  returned (get (Data := nat) id id "p" "{}" 60 3540000000
              (set id id "p" "{}" 7%nat 0 (mkCache false ∅ None)))
  = Return (Some 7%nat).
Proof.
  refine (proj1 (proj2 (get_after_set id id "p" "{}" 7%nat 60 3600000000
                          0 3540000000 (mkCache false ∅ None) _)) _).
  - reflexivity.
  - lia.
Defined.

(** An entry written at instant 0 and read after two hours with a one-hour
    TTL is removed; a [set] on the empty store leaves another key absent. *)
Lemma get_evicts_witness :
  (exists c',
      get (Data := nat) id id "p" "{}" 60 7200000000
        (set id id "p" "{}" 7%nat 0 (mkCache false ∅ None))
      = Return (None, c'))
  /\ cache_store
       (set (Data := nat) id id "p" "{}" 7%nat 0 (mkCache false ∅ None))
     !! "other" = None.
Proof.
  destruct (get_evicts_and_set_frames (Data := nat) id id "p" "{}")
    as (Hevict & Hframe & _).
  split.
  - destruct (Hevict 60 3600000000 7200000000
                (set id id "p" "{}" 7%nat 0 (mkCache false ∅ None))
                (mkItem 7%nat 0)) as [c' [H _]].
    + vm_compute. reflexivity.
    + reflexivity.
    + simpl. lia.
    + exists c'. exact H.
  - rewrite Hframe; [reflexivity | discriminate].
Defined.

End cache_manager_facts.

(** ** investment_strategy.py *)

Module investment_strategy_facts.

Import investment_strategy.

(** C3.  [_determine_action] is defined on every triple of floats (NaN and
    the infinities included) and its result is fixed by the ordered rules:
    Strong Buy 0.9, else Buy 0.8, else Sell 0.8, else Weak Sell 0.7, else
    Hold with 0.6 when [abs(expected_return) < 3] and 0.5 otherwise; the
    result is always one of six pairs over the five actions. *)
Theorem determine_action_rules (er cs ss : pyfloat) :
  let strong_buy :=
    (er >? Fin 10)%F && (cs >? Fin 0.7)%F && (ss >? Fin 0.2)%F in
  let buy := (er >? Fin 5)%F && (cs >? Fin 0.6)%F in
  let sell :=
    (er <? Fin (-10))%F || ((cs <? Fin 0.3)%F && (ss <? Fin (-0.3))%F) in
  let weak_sell := (er <? Fin (-5))%F || (cs <? Fin 0.4)%F in
  (strong_buy = true ->
   _determine_action er cs ss = (STRONG_BUY, Fin 0.9))
  /\ (strong_buy = false -> buy = true ->
      _determine_action er cs ss = (BUY, Fin 0.8))
  /\ (strong_buy = false -> buy = false -> sell = true ->
      _determine_action er cs ss = (SELL, Fin 0.8))
  /\ (strong_buy = false -> buy = false -> sell = false ->
      weak_sell = true ->
      _determine_action er cs ss = (WEAK_SELL, Fin 0.7))
  /\ (strong_buy = false -> buy = false -> sell = false ->
      weak_sell = false ->
      ((py_abs er <? Fin 3)%F = true ->
       _determine_action er cs ss = (HOLD, Fin 0.6))
      /\ ((py_abs er <? Fin 3)%F = false ->
          _determine_action er cs ss = (HOLD, Fin 0.5)))
  /\ _determine_action er cs ss
     ∈ [ (STRONG_BUY, Fin 0.9); (BUY, Fin 0.8); (SELL, Fin 0.8);
         (WEAK_SELL, Fin 0.7); (HOLD, Fin 0.6); (HOLD, Fin 0.5) ].
Proof.
  intros strong_buy buy sell weak_sell.
  unfold _determine_action.
  fold strong_buy buy sell weak_sell.
  destruct strong_buy, buy, sell, weak_sell, (py_abs er <? Fin 3)%F;
    repeat split; intros; try discriminate; try reflexivity;
    set_solver.
Qed.

(** A 12%% expected return with a combined score of 0.8 and a sentiment of
    0.3 is a Strong Buy. *)
Lemma determine_action_rules_witness :
  _determine_action (Fin 12) (Fin 0.8) (Fin 0.3) = (STRONG_BUY, Fin 0.9).
Proof.
  apply (proj1 (determine_action_rules (Fin 12) (Fin 0.8) (Fin 0.3))).
  reflexivity.
Defined.

(** C8.  With an empty list of predicted prices [generate_recommendation]
    raises nothing and recommends Hold with confidence 0.5, the current
    price as target and the risk level "Unknown"; with an empty dictionary
    of indicators [_calculate_technical_score] returns the neutral 0.5. *)
Theorem no_crash_on_missing_inputs (format_1f : pyfloat -> string)
    (symbol : string) (current_price sentiment_score : pyfloat)
    (technical_indicators : gmap string pyval)
    (fundamental_data : option (gmap string pyval)) :
  (exists r,
      generate_recommendation format_1f symbol current_price []
        sentiment_score technical_indicators fundamental_data = Return r
      /\ investment_strategy.symbol r = symbol
      /\ action r = HOLD
      /\ action_value (action r) = "Hold"
      /\ confidence r = Fin 0.5
      /\ target_price r = current_price
      /\ risk_level r = "Unknown")
  /\ _calculate_technical_score ∅ = Return (Fin 0.5).
Proof.
  split.
  - eexists. split; [reflexivity|]. simpl. repeat split.
  - reflexivity.
Qed.

End investment_strategy_facts.

(** ** core/financial_analyzer.py *)

Module financial_analyzer_facts.

Import cache_manager financial_analyzer.

(** Turns the comparisons of a goal on finite floats into facts on
    rationals, by cases. *)
Ltac float_cases :=
  repeat match goal with
  | |- context [Qltb ?a ?b] =>
      let E := fresh "E" in
      destruct (Qltb a b) eqn:E;
      [apply Qltb_lt in E | apply Qltb_ge in E]
  | |- context [Qle_bool ?a ?b] =>
      let E := fresh "E" in
      destruct (Qle_bool a b) eqn:E;
      [apply Qle_bool_iff in E
      | assert (b < a)%Q
          by (apply Qnot_le_lt; intros ?%Qle_bool_iff; congruence);
        clear E]
  end.

Section SentimentFacts.

Variable textblob_polarity : string -> Q.

(** C6.  The label of [analyze_sentiment] is fixed by the polarity it
    returns: "Positive" exactly when the polarity exceeds 0.1, "Negative"
    exactly when it is below -0.1, "Neutral" otherwise.  When the words of
    the lowercased text hold strictly more positive than negative keywords
    the polarity is at least 0.1 and the label is not "Negative"; when they
    hold strictly more negative than positive ones it is at most -0.1 and
    the label is not "Positive". *)
Theorem sentiment_label_and_keywords (text : string) :
  let words : gset string := list_to_set (py_split (py_lower text)) in
  let positive_count := size (words ∩ positive_words) in
  let negative_count := size (words ∩ negative_words) in
  let label := (analyze_sentiment textblob_polarity text).1 in
  let polarity := (analyze_sentiment textblob_polarity text).2 in
  (label = "Positive" <-> (polarity >? Fin 0.1)%F = true)
  /\ (label = "Negative" <-> (polarity <? Fin (-0.1))%F = true)
  /\ (label = "Neutral" <->
      (polarity >? Fin 0.1)%F = false /\ (polarity <? Fin (-0.1))%F = false)
  /\ ((negative_count < positive_count)%nat ->
      (polarity >=? Fin 0.1)%F = true /\ label <> "Negative")
  /\ ((positive_count < negative_count)%nat ->
      (polarity <=? Fin (-0.1))%F = true /\ label <> "Positive").
Proof.
  intros words positive_count negative_count label polarity.
  subst label polarity. unfold analyze_sentiment.
  fold words. fold positive_count negative_count.
  set (q := textblob_polarity text).
  destruct (Nat.ltb_spec negative_count positive_count) as [Hpos | Hpos];
    [| destruct (Nat.ltb_spec positive_count negative_count) as [Hneg | Hneg]];
    cbn [fst snd]; unfold py_max, py_min, fgtb, fgeb; cbn [fltb fleb];
    float_cases; cbn [fltb fleb]; float_cases;
    repeat split; intros; try discriminate; try reflexivity; try lia;
    try (exfalso; lra);
    repeat match goal with H : _ /\ _ |- _ => destruct H end;
    try discriminate; try (exfalso; lra).
Qed.

End SentimentFacts.

(** Two positive keywords and no negative one lift a neutral baseline to
    0.1. *)
Lemma sentiment_label_and_keywords_witness :
  ((analyze_sentiment (fun _ => 0%Q) "Strong growth ahead").2 >=? Fin 0.1)%F
  = true.
Proof.
  apply (proj1 (proj2 (proj2 (proj2
           (sentiment_label_and_keywords (fun _ => 0%Q)
              "Strong growth ahead"))))).
  vm_compute. lia.
Defined.

Lemma filter_none {A : Type} (p : A -> bool) (l : list A) :
  (forall x, In x l -> p x = false) -> List.filter p l = [].
Proof.
  induction l as [|x l IH]; intros H; [reflexivity|].
  simpl. rewrite (H x (or_introl eq_refl)).
  apply IH. intros y Hy. apply H. by right.
Qed.

(** No piece between full stops is longer than 20 characters once
    stripped: the fallback has no sentence to work with. *)
Lemma sentences_of_short (text : string) :
  (forall s, In s (split_on "."%char text) ->
             (String.length (py_strip s) <= 20)%nat) ->
  sentences_of text = [].
Proof.
  intros H. unfold sentences_of. rewrite filter_none; [reflexivity|].
  intros s Hs. apply andb_false_iff. right.
  apply Nat.ltb_ge. by apply H.
Qed.

Section QAFacts.

Variable findall_numbers : string -> list string.
Variable findall_dates : string -> list string.
Variable list_of_set : list string -> list string.
Variable requests_post : Request -> result Response.
Variable py_hash : string -> Z.
Variable json_dumps : QAParams -> string.
Variable md5_hexdigest : string -> string.

Abbreviation fallback :=
  (_get_fallback_answer findall_numbers findall_dates list_of_set).
Abbreviation qa :=
  (ai_powered_qa findall_numbers findall_dates list_of_set requests_post
     py_hash json_dumps md5_hexdigest).
Abbreviation params_of text question :=
  (mkQAParams (py_hash (str_take 1000 text)) question).

(** C5.  On a cache miss, with the API key unset or equal to "demo",
    [ai_powered_qa] returns the answer of [_get_fallback_answer], sends no
    request to the hosted model and caches the answer; and when no piece of
    the text between full stops is longer than 20 characters once stripped,
    that answer is the fixed sentence. *)
Theorem qa_fallback_without_key (api_key : option string)
    (text question : string) (now_get now_set : Z)
    (cache cache' : CacheManager (Data := string))
    (Hkey : api_key = None \/ api_key = Some "demo")
    (Hmiss : get json_dumps md5_hexdigest "qa_response"
               (params_of text question) 60 now_get cache
             = Return (None, cache')) :
  (exists o,
      qa api_key text question now_get now_set cache = Return o
      /\ answer o = fallback text question
      /\ requests_sent o = []
      /\ cache_after o
         = set json_dumps md5_hexdigest "qa_response"
             (params_of text question) (fallback text question) now_set
             cache')
  /\ ((forall s, In s (split_on "."%char text) ->
                 (String.length (py_strip s) <= 20)%nat) ->
      fallback text question
      = "No content available to answer the question.").
Proof.
  split.
  - unfold ai_powered_qa. rewrite Hmiss. cbn [mbind result_bind].
    destruct Hkey as [-> | ->]; cbn; eexists; repeat split.
  - intros Hshort. unfold _get_fallback_answer.
    by rewrite (sentences_of_short text Hshort).
Qed.

End QAFacts.

(** An unset key and an empty cache: the short text is answered by the
    fixed sentence and nothing is sent. *)
Lemma qa_fallback_without_key_witness :
  exists o,
    ai_powered_qa (fun _ => []) (fun _ => []) id (fun _ => Raise TypeError)
      (fun _ => 0) (fun p => question_of p) id None "Short. Text." "Why?"
      0 1 (mkCache false ∅ None)
    = Return o
    /\ answer o = "No content available to answer the question."
    /\ requests_sent o = [].
Proof.
  destruct (qa_fallback_without_key (fun _ => []) (fun _ => []) id
              (fun _ => Raise TypeError) (fun _ => 0)
              (fun p => question_of p) id None "Short. Text." "Why?" 0 1
              (mkCache false ∅ None) (mkCache false ∅ None))
    as [[o (Ho & Ha & Hs & _)] Hfixed].
  - by left.
  - reflexivity.
  - exists o. split; [exact Ho|]. split; [|exact Hs].
    rewrite Ha. apply Hfixed.
    intros s Hs'. vm_compute in Hs'.
    repeat (destruct Hs' as [<- | Hs']; [vm_compute; lia|]).
    destruct Hs'.
Defined.

End financial_analyzer_facts.

(** ** file_processor.py *)

Module file_processor_facts.

Import file_processor.

(** Looking up a key of a dictionary literal. *)
Ltac dict_lookup :=
  unfold text_metadata, dict, characters_of, words_of, py_len;
  cbn [list_to_map foldr uncurry fst snd];
  repeat (rewrite lookup_insert_ne by discriminate);
  first [apply lookup_insert_eq | apply lookup_empty].

Lemma file_info_no_counts (f : UploadedFile) (k : string) :
  k ∈ ["words"; "characters"; "pages"; "rows"] ->
  get_file_info f !! k = None.
Proof.
  intros Hk. unfold get_file_info.
  repeat (apply elem_of_cons in Hk as [-> | Hk]);
    [dict_lookup .. | by apply elem_of_nil in Hk].
Qed.

(** [update] keeps the entries of the metadata that [file_info] does not
    name. *)
Lemma update_keeps (metadata file_info : gmap string pyval) (k : string) :
  file_info !! k = None -> update metadata file_info !! k = metadata !! k.
Proof.
  intros H. unfold update. rewrite lookup_union, H.
  by destruct (metadata !! k).
Qed.

Section ProcessorFacts.

Variable decode_utf8 : list Byte.byte -> result string.
Variable decode_latin1 : list Byte.byte -> result string.
Variable pdfplumber_open : list Byte.byte -> result (list Page).
Variable docx_Document : list Byte.byte -> result Docx.
Variable pptx_Presentation : list Byte.byte -> result (list (list Shape)).
Variable pd_read_excel : list Byte.byte -> result (list (string * DataFrame)).
Variable pd_read_csv : list Byte.byte -> result DataFrame.
Variable format_2f : pyfloat -> string.
Variable format_4f : pyfloat -> string.
Variable str_of_float : pyfloat -> string.
Variable json_load_dumps : list Byte.byte -> result (string * string).
Variable xml_root_tag : string -> result string.

Abbreviation table :=
  (processors decode_utf8 decode_latin1 pdfplumber_open docx_Document
     pptx_Presentation pd_read_excel pd_read_csv format_2f format_4f
     str_of_float json_load_dumps xml_root_tag).
Abbreviation run :=
  (process_file decode_utf8 decode_latin1 pdfplumber_open docx_Document
     pptx_Presentation pd_read_excel pd_read_csv format_2f format_4f
     str_of_float json_load_dumps xml_root_tag).

(** The routing table and [supported_formats] name the same ten types. *)
Lemma table_supported (file_type : string) :
  table !! file_type = None <-> supported_formats !! file_type = None.
Proof.
  unfold processors, supported_formats, dict.
  by rewrite <- !not_elem_of_list_to_map.
Qed.

(** C4.  [process_file] picks its routine by looking the declared MIME
    type up in the routing table, so two files that declare the same type
    get the same routine.  It returns [(None, None)] for a type outside the
    ten supported ones, and also when the routine raises, returns no content
    or returns empty content; with non-empty content it returns the content
    and the metadata updated with the file information.  Being a total
    function into pairs, it passes no exception on. *)
Theorem process_file_dispatch (f : UploadedFile) :
  (forall g, type g = type f -> table !! type g = table !! type f)
  /\ (supported_formats !! type f = None -> run f = (None, None))
  /\ (size (dom supported_formats) = 10%nat
      /\ (is_Some (table !! type f) <-> is_Some (supported_formats !! type f)))
  /\ (forall processor,
        table !! type f = Some processor ->
        (forall e, processor f = Raise e -> run f = (None, None))
        /\ (forall metadata,
              processor f = Return (None, metadata) -> run f = (None, None))
        /\ (forall metadata,
              processor f = Return (Some "", metadata) ->
              run f = (None, None))
        /\ (forall content metadata,
              processor f = Return (Some content, Some metadata) ->
              content <> "" ->
              run f = (Some content,
                       Some (update metadata (get_file_info f))))).
Proof.
  split; [by intros g ->|].
  split.
  { intros H%table_supported. unfold process_file. cbv zeta. by rewrite H. }
  split.
  { split; [by vm_compute|].
    rewrite <- !not_eq_None_Some. by rewrite table_supported. }
  intros processor Hp. unfold process_file. cbv zeta. rewrite Hp.
  repeat split.
  - by intros e ->.
  - by intros metadata ->.
  - by intros metadata ->.
  - intros content metadata -> Hne.
    destruct (String.eqb_spec content ""); [contradiction | reflexivity].
Qed.

(** What every routine of the table writes next to the content it
    returns. *)
Abbreviation well_counted content metadata :=
  (metadata !! "words" = Some (VInt (Z.of_nat (length (py_split content))))
   /\ metadata !! "characters"
      = Some (VInt (Z.of_nat (String.length content)))).

Ltac unguard H :=
  unfold guarded in H; cbn [mbind result_bind] in H.

Ltac counted :=
  split; dict_lookup.

Lemma text_counted f content metadata :
  _process_text decode_utf8 decode_latin1 f
  = Return (Some content, Some metadata) ->
  well_counted content metadata.
Proof.
  unfold _process_text. intros H.
  destruct (decode_utf8 (getvalue f)) as [c | e].
  - inversion H; subst. counted.
  - destruct e; try discriminate. unguard H.
    destruct (decode_latin1 (getvalue f)); [|discriminate].
    inversion H; subst. counted.
Qed.

Lemma pdf_counted f content metadata :
  _process_pdf pdfplumber_open f = Return (Some content, Some metadata) ->
  well_counted content metadata
  /\ exists pages,
       pdfplumber_open (getvalue f) = Return pages
       /\ metadata !! "pages" = Some (VInt (Z.of_nat (length pages))).
Proof.
  unfold _process_pdf. intros H. unguard H.
  destruct (pdfplumber_open (getvalue f)) as [pages | e]; [|discriminate].
  inversion H; subst. split; [counted|].
  exists pages. split; [reflexivity | dict_lookup].
Qed.

Lemma docx_counted f content metadata :
  _process_docx docx_Document f = Return (Some content, Some metadata) ->
  well_counted content metadata.
Proof.
  unfold _process_docx. intros H. unguard H.
  destruct (docx_Document (getvalue f)); [|discriminate].
  inversion H; subst. counted.
Qed.

Lemma pptx_counted f content metadata :
  _process_pptx pptx_Presentation f = Return (Some content, Some metadata) ->
  well_counted content metadata.
Proof.
  unfold _process_pptx. intros H. unguard H.
  destruct (pptx_Presentation (getvalue f)) as [slides | e]; [|discriminate].
  cbn [mbind result_bind] in H.
  destruct (foldl _ _ _) as [[c t] s].
  inversion H; subst. counted.
Qed.

Lemma excel_counted f content metadata :
  _process_excel pd_read_excel format_2f f
  = Return (Some content, Some metadata) ->
  well_counted content metadata.
Proof.
  unfold _process_excel. intros H. unguard H.
  destruct (pd_read_excel (getvalue f)); [|discriminate].
  inversion H; subst. counted.
Qed.

Lemma csv_counted f content metadata :
  _process_csv pd_read_csv format_4f str_of_float f
  = Return (Some content, Some metadata) ->
  well_counted content metadata
  /\ exists df,
       pd_read_csv (getvalue f) = Return df
       /\ metadata !! "rows" = Some (VInt (Z.of_nat (shape df).1)).
Proof.
  unfold _process_csv. intros H. unguard H.
  destruct (pd_read_csv (getvalue f)) as [df | e]; [|discriminate].
  cbn [mbind result_bind] in H.
  destruct (shape df) as [rows cols] eqn:Hshape.
  inversion H; subst. split; [counted|].
  exists df. split; [reflexivity|]. rewrite Hshape. dict_lookup.
Qed.

Lemma json_counted f content metadata :
  _process_json json_load_dumps f = Return (Some content, Some metadata) ->
  well_counted content metadata.
Proof.
  unfold _process_json. intros H. unguard H.
  destruct (json_load_dumps (getvalue f)) as [[d t] | e]; [|discriminate].
  inversion H; subst. counted.
Qed.

Lemma xml_counted f content metadata :
  _process_xml decode_utf8 xml_root_tag f
  = Return (Some content, Some metadata) ->
  well_counted content metadata.
Proof.
  unfold _process_xml. intros H. unguard H.
  destruct (decode_utf8 (getvalue f)) as [s | e]; [|discriminate].
  cbn [mbind result_bind] in H.
  destruct (xml_root_tag s) as [t | e]; [|discriminate].
  inversion H; subst. counted.
Qed.

(** What [process_file] returns on success is what the routine of the
    declared type returned, the file information added. *)
Lemma process_file_success f content metadata :
  run f = (Some content, Some metadata) ->
  exists processor metadata0,
    table !! type f = Some processor
    /\ processor f = Return (Some content, Some metadata0)
    /\ metadata = update metadata0 (get_file_info f).
Proof.
  unfold process_file, failed. cbv zeta. intros H.
  destruct (table !! type f) as [processor|]; [|discriminate].
  destruct (processor f) as [[[c|] m] | e] eqn:Hrun; try discriminate.
  destruct (String.eqb c ""); [discriminate|].
  destruct m as [m|]; [|discriminate].
  inversion H; subst. by exists processor, m.
Qed.

(** C7.  When [process_file] succeeds, the metadata it returns has
    [words] equal to the number of whitespace-separated tokens of the
    returned content and [characters] equal to its length; for a file
    declared as PDF, [pages] is the number of pages pdfplumber opened, and
    for one declared as CSV, [rows] is the number of rows of the data frame
    pandas parsed. *)
Theorem counts_are_consistent (f : UploadedFile) (content : string)
    (metadata : gmap string pyval)
    (Hok : run f = (Some content, Some metadata)) :
  metadata !! "words" = Some (VInt (Z.of_nat (length (py_split content))))
  /\ metadata !! "characters"
     = Some (VInt (Z.of_nat (String.length content)))
  /\ (type f = "application/pdf" ->
      exists pages,
        pdfplumber_open (getvalue f) = Return pages
        /\ metadata !! "pages" = Some (VInt (Z.of_nat (length pages))))
  /\ (type f = "text/csv" ->
      exists df,
        pd_read_csv (getvalue f) = Return df
        /\ metadata !! "rows" = Some (VInt (Z.of_nat (shape df).1))).
Proof.
  destruct (process_file_success _ _ _ Hok) as (p & m & Hp & Hrun & ->).
  assert (Hkeep : forall k, k ∈ ["words"; "characters"; "pages"; "rows"] ->
            update m (get_file_info f) !! k = m !! k)
    by (intros k Hk; apply update_keeps, file_info_no_counts, Hk).
  rewrite !Hkeep by set_solver.
  assert (Hcases : well_counted content m
            /\ (type f = "application/pdf" ->
                exists pages,
                  pdfplumber_open (getvalue f) = Return pages
                  /\ m !! "pages" = Some (VInt (Z.of_nat (length pages))))
            /\ (type f = "text/csv" ->
                exists df,
                  pd_read_csv (getvalue f) = Return df
                  /\ m !! "rows" = Some (VInt (Z.of_nat (shape df).1)))).
  { apply elem_of_list_to_map_2 in Hp.
    repeat (apply elem_of_cons in Hp as [Hp | Hp];
            [injection Hp as Ht ->; rewrite Ht |]).
    - split; [by eapply text_counted|]. split; intros; discriminate.
    - destruct (pdf_counted _ _ _ Hrun) as [Hc Hpages].
      split; [exact Hc|]. split; [by intros _ | intros; discriminate].
    - split; [by eapply docx_counted|]. split; intros; discriminate.
    - split; [by eapply pptx_counted|]. split; intros; discriminate.
    - split; [by eapply excel_counted|]. split; intros; discriminate.
    - split; [by eapply excel_counted|]. split; intros; discriminate.
    - destruct (csv_counted _ _ _ Hrun) as [Hc Hrows].
      split; [exact Hc|]. split; [intros; discriminate | by intros _].
    - split; [by eapply json_counted|]. split; intros; discriminate.
    - split; [by eapply xml_counted|]. split; intros; discriminate.
    - split; [by eapply xml_counted|]. split; intros; discriminate.
    - by apply elem_of_nil in Hp. }
  destruct Hcases as ([Hw Hc] & Hpdf & Hcsv).
  split; [exact Hw|]. split; [exact Hc|].
  split; intros Ht; auto.
Qed.

End ProcessorFacts.

(** Library stand-ins for the two examples below: a decoder that reads
    every file as "hello world", parsers that reject theirs. *)
Abbreviation run_example :=
  (process_file (fun _ => Return "hello world") (fun _ => Raise TypeError)
     (fun _ => Raise TypeError) (fun _ => Raise TypeError)
     (fun _ => Raise TypeError) (fun _ => Raise TypeError)
     (fun _ => Raise TypeError) (fun _ => "") (fun _ => "") (fun _ => "")
     (fun _ => Raise TypeError) (fun _ => Raise TypeError)).

(** A PNG image is not routed anywhere. *)
Lemma process_file_dispatch_witness :
  run_example (mkFile "chart.png" "image/png" []) = (None, None).
Proof.
  apply (proj1 (proj2 (process_file_dispatch
           (fun _ => Return "hello world") (fun _ => Raise TypeError)
           (fun _ => Raise TypeError) (fun _ => Raise TypeError)
           (fun _ => Raise TypeError) (fun _ => Raise TypeError)
           (fun _ => Raise TypeError) (fun _ => "") (fun _ => "")
           (fun _ => "") (fun _ => Raise TypeError)
           (fun _ => Raise TypeError)
           (mkFile "chart.png" "image/png" [])))).
  reflexivity.
Defined.

(** A text file reading "hello world": two words, eleven characters. *)
Lemma counts_are_consistent_witness :
  exists metadata,
    run_example (mkFile "note.txt" "text/plain" []) 
    = (Some "hello world", Some metadata)
    /\ metadata !! "words" = Some (VInt 2)
    /\ metadata !! "characters" = Some (VInt 11).
Proof.
  pose (f := mkFile "note.txt" "text/plain" []).
  pose (metadata := update (text_metadata "utf-8" "hello world")
                      (get_file_info f)).
  assert (Hrun : run_example f = (Some "hello world", Some metadata))
    by reflexivity.
  exists metadata. split; [exact Hrun|].
  destruct (counts_are_consistent _ _ _ _ _ _ _ _ _ _ _ _ f "hello world"
              metadata Hrun) as (Hw & Hc & _).
  split; [exact Hw | exact Hc].
Defined.

End file_processor_facts.

(** ** core/forecasting_models.py *)

Module forecasting_models_facts.

Import forecasting_models.

(** *** Float facts *)

Lemma same_float_refl (x : pyfloat) : same_float x x.
Proof. destruct x; simpl; auto. reflexivity. Qed.

Lemma same_float_fadd (x x' y y' : pyfloat) :
  same_float x x' -> same_float y y' -> same_float (x + y)%F (x' + y')%F.
Proof.
  destruct x, x', y, y'; simpl; try tauto.
  intros -> ->. reflexivity.
Qed.

Lemma fadd_zero_l (x : pyfloat) : same_float (Fin 0 + x)%F x.
Proof. destruct x; simpl; auto. ring. Qed.

(** *** Monadic maps *)

Lemma mapM_Return {A B : Type} (f : A -> result B) (g : A -> B)
    (l : list A) :
  (forall x, x ∈ l -> f x = Return (g x)) -> mapM f l = Return (map g l).
Proof.
  induction l as [|x l IH]; intros H; [reflexivity|].
  cbn. rewrite (H x) by set_solver. cbn.
  rewrite IH by (intros y Hy; apply H; set_solver). reflexivity.
Qed.

Section ForecastFacts.

Variable np_sqrt : pyfloat -> pyfloat.
Variable np_std : list pyfloat -> pyfloat.
Variable lookback_weights : list pyfloat.
Context {Model : Type}.
Variable fit_transform : list (list pyfloat) -> result (list (list pyfloat)).
Variable fit : string -> list (list pyfloat) -> list pyfloat -> result Model.
Variable predict : Model -> list pyfloat -> result pyfloat.

Abbreviation run := (run_model fit_transform fit predict).
Abbreviation ensemble :=
  (_generate_ensemble_predictions np_std lookback_weights fit_transform fit
     predict).
Abbreviation features_of :=
  (_prepare_features np_std lookback_weights).

(** The feature preparation raises nothing: its indices are in range. *)
Lemma prepare_features_total (price_data : list pyfloat) :
  exists features targets,
    features_of price_data = Return (features, targets)
    /\ length features = (length price_data - 1 - 20)%nat.
Proof.
  unfold _prepare_features, lookback.
  set (idx := seq 20 (length price_data - 1 - 20)).
  assert (Hidx : forall i, i ∈ idx ->
            (20 <= i /\ i < length price_data - 1)%nat).
  { intros i Hi. apply elem_of_seq in Hi. lia. }
  assert (Hitem : forall i, (i < length price_data)%nat ->
            item price_data i
            = Return (default (Fin 0) (price_data !! i))).
  { intros i Hi. unfold item.
    destruct (lookup_lt_is_Some_2 price_data i Hi) as [x ->]. reflexivity. }
  erewrite (mapM_Return (feature_vector np_std lookback_weights price_data)).
  2:{ intros i Hi. apply Hidx in Hi. unfold feature_vector, lookback.
      rewrite Hitem by lia. cbn. reflexivity. }
  cbn. erewrite (mapM_Return (item price_data)).
  2:{ intros i Hi. apply Hidx in Hi. apply Hitem. lia. }
  cbn. eexists _, _. split; [reflexivity|].
  rewrite length_map. unfold idx. apply length_seq.
Qed.

Lemma predict_days_length model days : forall last_features preds,
  predict_days predict model last_features days = Return preds ->
  length preds = days.
Proof.
  induction days as [|d IH]; intros lf preds H; cbn in H.
  - by inversion H.
  - destruct (predict model lf) as [pred|]; [|discriminate]. cbn in H.
    destruct (roll_and_set lf pred) as [lf'|]; [|discriminate]. cbn in H.
    destruct (predict_days predict model lf' d) as [rest|] eqn:E;
      [|discriminate].
    cbn in H. inversion H; subst. cbn. f_equal. by eapply IH.
Qed.

Lemma run_model_inv name features targets days preds weight :
  run name features targets days = Return (preds, weight) ->
  model_weights !! name = Some weight /\ length preds = days.
Proof.
  unfold run_model. intros H.
  destruct (fit_transform features) as [fs|]; [|discriminate]. cbn in H.
  destruct (fit name fs targets) as [model|]; [|discriminate]. cbn in H.
  destruct (last_item fs) as [lf|]; [|discriminate]. cbn in H.
  destruct (predict_days predict model lf days) as [mp|] eqn:E;
    [|discriminate].
  cbn in H. destruct (model_weights !! name) as [w|]; [|discriminate].
  inversion H; subst. split; [reflexivity|]. by eapply predict_days_length.
Qed.

(** The blend of three completed blocks, in terms of the lists the blocks
    store. *)
Lemma blend_of_blocks (market_data : MarketData) (days : Z)
    (features : list (list pyfloat)) (targets rf gb lr : list pyfloat)
    (w_rf w_gb w_lr : pyfloat)
    (Hfeatures : features_of (hist_1y_Close market_data)
                 = Return (features, targets))
    (Henough : (30 <= length features)%nat)
    (Hrf : run "random_forest" features targets (Z.to_nat days)
           = Return (rf, w_rf))
    (Hgb : run "gradient_boost" features targets (Z.to_nat days)
           = Return (gb, w_gb))
    (Hlr : run "linear" features targets (Z.to_nat days)
           = Return (lr, w_lr)) :
  (w_rf = Fin 0.4 /\ w_gb = Fin 0.4 /\ w_lr = Fin 0.2)
  /\ same_float (Fin 0.4 + Fin 0.4 + Fin 0.2)%F (Fin 1)
  /\ exists final,
       ensemble market_data days = Return final
       /\ length final = Z.to_nat days
       /\ forall day, (day < Z.to_nat days)%nat ->
            exists p r g l,
              final !! day = Some p
              /\ rf !! day = Some r /\ gb !! day = Some g
              /\ lr !! day = Some l
              /\ same_float p (Fin 0.4 * r + Fin 0.4 * g + Fin 0.2 * l)%F.
Proof.
  destruct (run_model_inv _ _ _ _ _ _ Hrf) as [Wrf Lrf].
  destruct (run_model_inv _ _ _ _ _ _ Hgb) as [Wgb Lgb].
  destruct (run_model_inv _ _ _ _ _ _ Hlr) as [Wlr Llr].
  assert (w_rf = Fin 0.4) as -> by (vm_compute in Wrf; congruence).
  assert (w_gb = Fin 0.4) as -> by (vm_compute in Wgb; congruence).
  assert (w_lr = Fin 0.2) as -> by (vm_compute in Wlr; congruence).
  split; [done|]. split; [reflexivity|].
  set (n := Z.to_nat days) in *.
  set (at_day := fun (preds : list pyfloat) (day : nat) =>
                   default (Fin 0) (preds !! day)).
  set (blend := fun day =>
                  py_sum [ (Fin 0.4 * at_day rf day)%F;
                           (Fin 0.4 * at_day gb day)%F;
                           (Fin 0.2 * at_day lr day)%F ]).
  assert (Hat : forall preds day, length preds = n -> (day < n)%nat ->
            preds !! day = Some (at_day preds day)).
  { intros preds day Hlen Hday. unfold at_day.
    destruct (lookup_lt_is_Some_2 preds day) as [x ->]; [lia | reflexivity]. }
  exists (map blend (seq 0 n)).
  split; [|split].
  - unfold _generate_ensemble_predictions. rewrite Hfeatures. cbn.
    rewrite bool_decide_eq_false_2 by lia.
    unfold models. cbn [train_ensemble]. fold n. rewrite Hrf, Hgb, Hlr.
    apply mapM_Return. intros day Hday. apply elem_of_seq in Hday.
    unfold day_pred. cbn. unfold item.
    rewrite (Hat rf), (Hat gb), (Hat lr) by lia. reflexivity.
  - rewrite length_map. apply length_seq.
  - intros day Hday.
    exists (blend day), (at_day rf day), (at_day gb day), (at_day lr day).
    split; [|split; [|split; [|split]]]; try (apply Hat; [assumption | lia]).
    + rewrite list_lookup_fmap, lookup_seq_lt by lia. reflexivity.
    + unfold blend, py_sum. cbn [foldl].
      repeat apply same_float_fadd; try apply same_float_refl.
      apply fadd_zero_l.
Qed.

(** The loop of one model stores its raw predictions clipped at zero. *)
Lemma predict_days_clips model days : forall last_features,
  predict_days predict model last_features days
  = (raw ← raw_predictions predict model last_features days;
     Return (map (py_max (Fin 0)) raw)).
Proof.
  induction days as [|d IH]; intros lf; cbn [predict_days raw_predictions];
    [reflexivity|].
  destruct (predict model lf) as [pred|]; [|reflexivity].
  cbn [mbind result_bind].
  destruct (roll_and_set lf pred) as [lf'|]; [|reflexivity].
  cbn [mbind result_bind]. rewrite IH.
  by destruct (raw_predictions predict model lf' d).
Qed.

Lemma raw_predictions_head model days last_features raw r :
  raw_predictions predict model last_features days = Return raw ->
  head raw = Some r -> predict model last_features = Return r.
Proof.
  destruct days as [|d]; cbn [raw_predictions]; [by intros [= <-]|].
  destruct (predict model last_features) as [pred|]; [|discriminate].
  cbn [mbind result_bind].
  destruct (roll_and_set last_features pred) as [lf'|]; [|discriminate].
  cbn [mbind result_bind].
  destruct (raw_predictions predict model lf' d); [|discriminate].
  cbn [mbind result_bind]. by intros [= <-] [= <-].
Qed.

(** The block of one model, from its parts: the scaling, the fit and the
    loop of predictions. *)
Lemma run_model_of_parts name scaled last_features model raw weight
    features targets days :
  fit_transform features = Return scaled ->
  fit name scaled targets = Return model ->
  last_item scaled = Return last_features ->
  raw_predictions predict model last_features days = Return raw ->
  model_weights !! name = Some weight ->
  run name features targets days
  = Return (map (py_max (Fin 0)) raw, weight).
Proof.
  intros Hs Hf Hl Hr Hw. unfold run_model.
  rewrite Hs. cbn [mbind result_bind]. rewrite Hf. cbn [mbind result_bind].
  rewrite Hl. cbn [mbind result_bind]. rewrite predict_days_clips, Hr.
  cbn [mbind result_bind]. by rewrite Hw.
Qed.


Abbreviation intervals := (_calculate_confidence_intervals np_sqrt).

Lemma last_item_cons {A : Type} (x : A) (l : list A) :
  exists y, last_item (x :: l) = Return y /\ last (x :: l) = Some y.
Proof.
  unfold last_item. destruct (last (x :: l)) as [y|] eqn:E; [by exists y|].
  apply last_None in E. discriminate.
Qed.

(** C10, at the input where the code departs from it.  A forecast whose
    first price is zero makes [_calculate_confidence_intervals] raise
    [ZeroDivisionError] on the expected return, whatever the history and
    the other prices: no dictionary is returned. *)
Theorem intervals_zero_first_price (rest : list pyfloat)
    (market_data : MarketData) :
  intervals [Fin 0] market_data = Raise ZeroDivisionError
  /\ intervals (Fin 0 :: rest) market_data = Raise ZeroDivisionError.
Proof.
  split; [reflexivity|].
  unfold _calculate_confidence_intervals.
  destruct (last_item_cons (Fin 0) rest) as (y & -> & _).
  reflexivity.
Qed.

(** With a history of two closing prices there is a single return, its
    sample standard deviation is undefined and the upper bound is a NaN:
    the prediction is not below it. *)
Lemma intervals_short_history :
  exists ci,
    intervals [Fin 100] (mkMarketData [Fin 100; Fin 101]) = Return (Some ci)
    /\ upper_bounds ci = [NaN]
    /\ (Fin 100 <=? NaN)%F = false.
Proof.
  eexists. split; [|split]; [reflexivity | | reflexivity].
  cbn. unfold effective_vol, bounds_of. cbn.
  destruct (np_sqrt (Fin 252)), (np_sqrt (Fin _)); reflexivity.
Qed.

(** The clamp [max(0.15, min(0.85, x))] lands in [0.15, 0.85] for every
    float, NaN and the infinities included. *)
Lemma clamp_probability (x : pyfloat) :
  exists q,
    py_max (Fin 0.15) (py_min (Fin 0.85) x) = Fin q
    /\ (0.15 <= q)%Q /\ (q <= 0.85)%Q.
Proof.
  unfold py_max, py_min, fgtb.
  destruct x as [q| | |]; cbn [fltb].
  - destruct (Qltb q 0.85) eqn:E1; cbn [fltb].
    + apply Qltb_lt in E1. destruct (Qltb 0.15 q) eqn:E2.
      * apply Qltb_lt in E2. exists q. split; [done|]. split; lra.
      * exists 0.15%Q. split; [done|]. split; lra.
    + exists 0.85%Q. split; [reflexivity|]. split; lra.
  - exists 0.85%Q. split; [reflexivity|]. split; lra.
  - exists 0.15%Q. split; [reflexivity|]. split; lra.
  - exists 0.85%Q. split; [reflexivity|]. split; lra.
Qed.

(** The bounds of one day, for a finite non-negative prediction and a finite
    non-negative volatility. *)
Lemma bounds_of_ordered (v p : Q) (i : nat)
    (Hsqrt : forall q, (0 <= q)%Q ->
               exists s, np_sqrt (Fin q) = Fin s /\ (0 <= s)%Q) :
  (0 <= v)%Q -> (0 <= p)%Q ->
  exists up lo,
    bounds_of np_sqrt (Fin v) i (Fin p) = (Fin up, Fin lo)
    /\ (0 <= lo)%Q /\ (lo <= p)%Q /\ (p <= up)%Q.
Proof.
  intros Hv Hp. unfold bounds_of.
  destruct (Hsqrt (inject_Z (Z.of_nat i + 1) / 252)%Q) as (s & -> & Hs).
  { apply Qle_shift_div_l; [reflexivity|].
    rewrite Qmult_0_l. change 0%Q with (inject_Z 0).
    rewrite <- Zle_Qle. lia. }
  cbn [fmul fadd fsub fneg].
  set (margin := (1.96 * p * (v * s) * 0.7)%Q).
  assert (Hm : (0 <= margin)%Q).
  { unfold margin.
    repeat apply Qmult_le_0_compat; try assumption; lra. }
  unfold py_max, fgtb. cbn [fltb].
  destruct (Qltb 0 (p + - margin)) eqn:E.
  - apply Qltb_lt in E. eexists _, _. split; [reflexivity|].
    split; [|split]; lra.
  - eexists _, _. split; [reflexivity|]. split; [|split]; lra.
Qed.

(** C10, where it holds.  For a forecast of finite non-negative prices whose
    first price is positive, a finite non-negative effective volatility and
    a square root that maps non-negative numbers to non-negative numbers,
    the intervals are returned, both lists of bounds are as long as the
    forecast, [0 <= lower <= prediction <= upper] at every index, the
    probability of a rise lies in [0.15, 0.85] and the probability of a
    fall is its complement to 1. *)
Lemma intervals_invariant (predictions : list pyfloat)
    (market_data : MarketData) (first v : Q)
    (Hsqrt : forall q, (0 <= q)%Q ->
               exists s, np_sqrt (Fin q) = Fin s /\ (0 <= s)%Q)
    (Hvol : effective_vol np_sqrt market_data = Fin v)
    (Hv : (0 <= v)%Q)
    (Hfirst : head predictions = Some (Fin first))
    (Hpos : (0 < first)%Q)
    (Hfinite : forall x, x ∈ predictions -> exists p, x = Fin p /\ (0 <= p)%Q) :
  exists ci,
    intervals predictions market_data = Return (Some ci)
    /\ length (upper_bounds ci) = length predictions
    /\ length (lower_bounds ci) = length predictions
    /\ (forall i pred, predictions !! i = Some pred ->
          exists lo up,
            lower_bounds ci !! i = Some lo /\ upper_bounds ci !! i = Some up
            /\ (Fin 0 <=? lo)%F = true /\ (lo <=? pred)%F = true
            /\ (pred <=? up)%F = true)
    /\ (Fin 0.15 <=? probability_up ci)%F = true
    /\ (probability_up ci <=? Fin 0.85)%F = true
    /\ probability_down ci = (Fin 1 - probability_up ci)%F.
Proof.
  destruct predictions as [|x rest]; [discriminate|].
  injection Hfirst as ->.
  unfold _calculate_confidence_intervals. rewrite Hvol.
  destruct (last_item_cons (Fin first) rest) as (y & -> & Hlast).
  cbn [mbind result_bind].
  assert (Hy : exists p, y = Fin p).
  { destruct (Hfinite y) as (p & -> & _); [|by exists p].
    apply last_Some in Hlast as [l' ->]. set_solver. }
  destruct Hy as [p ->].
  unfold py_div.
  destruct (Qeq_bool first 0) eqn:E.
  { apply Qeq_bool_iff in E. lra. }
  cbn [mbind result_bind].
  eexists. split; [reflexivity|]. cbn [upper_bounds lower_bounds
    probability_up probability_down].
  split; [by rewrite length_fmap, length_imap|].
  split; [by rewrite length_fmap, length_imap|].
  split.
  - intros i pred Hi.
    destruct (Hfinite pred) as (q & -> & Hq);
      [by eapply list_elem_of_lookup_2|].
    destruct (bounds_of_ordered v q i Hsqrt Hv Hq)
      as (up & lo & Hb & H0 & Hlo & Hup).
    exists (Fin lo), (Fin up).
    rewrite !list_lookup_fmap, list_lookup_imap, Hi. cbn -[bounds_of].
    rewrite Hb. cbn.
    repeat split; apply Qle_bool_iff; assumption.
  - destruct (clamp_probability
                (Fin 0.5 + np_div (np_div (Fin p - Fin first) (Fin first))
                                  (Fin 2 * Fin v))%F)
      as (q & -> & Hlo & Hhi).
    cbn. repeat split; apply Qle_bool_iff; assumption.
Qed.

End ForecastFacts.


(** Estimators named by their registration: every fit succeeds, the forest
    and the boosting predict 10; the linear model predicts [-5] in the
    first case and fails to predict in the second. *)
Abbreviation forecast_with predict_linear :=
  (_generate_ensemble_predictions (Model := string) (fun _ => Fin 0)
     (replicate 20 (Fin 1)) (fun _ => Return [[Fin 0]])
     (fun name _ _ => Return name)
     (fun model _ =>
        if String.eqb model "linear" then predict_linear
        else Return (Fin 10))
     (mkMarketData (replicate 51 (Fin 1))) 1).

(** C2 as first stated fails.  With all three fits succeeding and the
    models' outputs 10, 10 and [-5], the day's forecast is 8, not
    0.4 * 10 + 0.4 * 10 + 0.2 * (-5) = 7: the negative output counts as
    zero.  And with all three fits succeeding but the linear model's
    prediction raising, the forecast is 8 again, the blend of two models
    with their weights 0.4 and 0.4, which do not sum to 1. *)
Lemma ensemble_blend_counterexample :
  (exists p,
      forecast_with (Return (Fin (-5))) = Return [p]
      /\ same_float p (Fin 8)
      /\ ~ same_float p
            (Fin 0.4 * Fin 10 + Fin 0.4 * Fin 10 + Fin 0.2 * Fin (-5))%F)
  /\ (exists p,
        forecast_with (Raise (OtherException "predict failed")) = Return [p]
        /\ same_float p (Fin 0.4 * Fin 10 + Fin 0.4 * Fin 10)%F
        /\ ~ same_float (Fin 0.4 + Fin 0.4)%F (Fin 1)).
Proof.
  split; eexists; (split; [vm_compute; reflexivity|]);
    split; vm_compute; first [reflexivity | intros H; discriminate H].
Qed.

End forecasting_models_facts.
